(** * am2321: a shallow embedding of [am2321.c] and its verification

    The program polls an AM2321 humidity/temperature sensor over I2C,
    validates the 8-byte reply (error code and CRC16) and prints the decoded
    values.  The C functions are embedded as state-passing functions over a
    [world] holding the [struct am2321] buffer, the state of the i2c-ctl
    library and the log of the calls the program makes ([usleep], [printk],
    [printf] and the transport).  [double] is IEEE binary64 (primitive
    floats), [int] is modelled in [Z] (every value stays far inside the
    32-bit range, see [clc_crcsum_range]). *)

From Stdlib Require Import ZArith List String Bool Lia PrimFloat Uint63.
From Stdlib.Strings Require Import Byte.
Import ListNotations.

(* Decimal constants such as 0.81 denote the nearest binary64 value, as in C. *)
Set Warnings "-inexact-float".

Local Open Scope string_scope.
Local Open Scope list_scope.
Local Open Scope Z_scope.

(** ** Plain [char]

    [register_data] is declared [char register_data[8]].  Whether plain
    [char] is signed is fixed by the ABI: unsigned on ARM Linux (the
    Raspberry Pi this tool addresses through /dev/i2c-1), signed on x86. *)

Inductive char_abi : Type := UnsignedChar | SignedChar.

Definition byte_to_Z (b : byte) : Z := Z.of_N (Byte.to_N b).

Definition byte_of_Z (z : Z) : byte :=
  match Byte.of_N (Z.to_N (z mod 256)) with
  | Some b => b
  | None => x00
  end.

(** The value of a [char] object after integer promotion. *)
Definition char_val (abi : char_abi) (b : byte) : Z :=
  match abi with
  | UnsignedChar => byte_to_Z b
  | SignedChar => if byte_to_Z b <? 128 then byte_to_Z b else byte_to_Z b - 256
  end.

(** The cast [(unsigned short)c]. *)
Definition to_ushort (z : Z) : Z := z mod 65536.

(** Conversion of an [int] to [double]; exact for the magnitudes met here. *)
Definition int_to_double (z : Z) : float :=
  if z <? 0
  then PrimFloat.opp (PrimFloat.of_uint63 (Uint63.of_Z (- z)))
  else PrimFloat.of_uint63 (Uint63.of_Z z).

(** ** Constants of the source *)

Definition I2C_DEV_1 : string := "/dev/i2c-1".   (* sprintf(I2C_DEV, 1) *)
Definition AM2321_ID : Z := 0x5c.
Definition AM2321_DEV_NAME : string := "am2321".
Definition I2C_SLAVE_MAX_RETRY : Z := 5.
Definition AM2321_WAIT_WAKEUP : Z := 800.
Definition AM2321_WAIT_WRITEMODE : Z := 1500.
Definition AM2321_WAIT_READMODE : Z := 30.
Definition AM2321_WAIT_REFRESH : Z := 2000000.

(** ** Observable calls *)

Inductive event : Type :=
| Usleep (usec : Z)
| Printk (fmt : string) (args : list Z)
| Printf (fmt : string) (args : list float)
| I2cGen (dev name : string) (id retry timeout : Z)
| I2cInit
| I2cWrite (data : list byte)
| I2cRead (len : Z)
| I2cTerm
| I2cDestroy.

(** ** The transport (lib/i2c-ctl.h)

    The i2c-ctl library is not part of the verified file: it is an interface
    over an abstract library/device state [bus] with handles [slave].  Every
    operation returns the C result ([-1] on failure); [read_i2c_slave] also
    returns the bytes it delivered into the caller's buffer. *)

Class I2CCtl (bus slave : Type) : Type := {
  gen_i2c_slave : string -> string -> Z -> Z -> Z -> bus -> slave * bus;
  init_i2c_slave : slave -> bus -> Z * bus;
  write_i2c_slave : slave -> list byte -> bus -> Z * bus;
  read_i2c_slave : slave -> Z -> bus -> (Z * list byte) * bus;
  term_i2c_slave : slave -> bus -> Z * bus;
  destroy_i2c_slave : slave -> bus -> Z * bus
}.

(** ** Program state *)

Record world (bus : Type) : Type := mkWorld {
  register_data : list byte;  (* am2321_data->register_data *)
  touched : list nat;         (* indices of register_data read by the program, in order *)
  i2c : bus;                  (* state behind the transport *)
  out : list event            (* calls made so far, oldest first *)
}.

Arguments mkWorld {bus} _ _ _ _.
Arguments register_data {bus} _.
Arguments touched {bus} _.
Arguments i2c {bus} _.
Arguments out {bus} _.

Definition M (bus A : Type) : Type := world bus -> A * world bus.

Definition ret {bus A} (a : A) : M bus A := fun w => (a, w).

Definition bind {bus A B} (m : M bus A) (k : A -> M bus B) : M bus B :=
  fun w => let (a, w') := m w in k a w'.

Declare Scope c_scope.
Delimit Scope c_scope with c.
Notation "x <- m ;; k" := (bind m (fun x => k))
  (at level 61, m at next level, right associativity) : c_scope.
Notation "m ;;; k" := (bind m (fun _ => k))
  (at level 61, right associativity) : c_scope.
Local Open Scope c_scope.

(** Counted loops [for (i = 0; i < n; i++)] whose body does not assign [i]:
    one over the state, one over local variables only. *)
Fixpoint for_loop {bus A} (n : nat) (i : nat) (body : nat -> A -> M bus A) (a : A)
  : M bus A :=
  match n with
  | O => ret a
  | S n' => a' <- body i a ;; for_loop n' (S i) body a'
  end.

Fixpoint for_local {A} (n : nat) (j : nat) (body : nat -> A -> A) (a : A) : A :=
  match n with
  | O => a
  | S n' => for_local n' (S j) body (body j a)
  end.

(** Overwrite the front of a buffer of [len] chars with what a read delivered. *)
Definition store_front (len : nat) (data buf : list byte) : list byte :=
  let d := firstn len data in
  d ++ skipn (List.length d) buf.

Section Primitives.
Context {bus : Type}.

Definition log (e : event) : M bus unit :=
  fun w => (tt, mkWorld (register_data w) (touched w) (i2c w) (out w ++ [e])).

Definition usleep (usec : Z) : M bus unit := log (Usleep usec).
Definition printk (fmt : string) (args : list Z) : M bus unit := log (Printk fmt args).
Definition printf (fmt : string) (args : list float) : M bus unit := log (Printf fmt args).

(** [am2321_data->register_data[i]] as an rvalue. *)
Definition load (i : nat) : M bus byte :=
  fun w => (nth i (register_data w) x00,
            mkWorld (register_data w) (touched w ++ [i]) (i2c w) (out w)).

(** A call into the transport: logged, then answered by the library. *)
Definition call {A} (e : event) (op : bus -> A * bus) : M bus A :=
  fun w => let (a, b) := op (i2c w) in
           (a, mkWorld (register_data w) (touched w) b (out w ++ [e])).

(** [read_i2c_slave(s, am2321_data->register_data, len)]. *)
Definition call_read {slave} `{I2CCtl bus slave} (s : slave) (len : Z) : M bus Z :=
  fun w => let '((r, data), b) := read_i2c_slave s len (i2c w) in
           (r, mkWorld (store_front (Z.to_nat len) data (register_data w))
                       (touched w) b (out w ++ [I2cRead len])).
End Primitives.

(** ** The functions of am2321.c

    Format strings are spelled as in the C source (backslash-n stands for the
    newline escape); the KERN_* prefixes are empty in the userland build. *)

Section Driver.
Context {bus slave : Type} {ctl : I2CCtl bus slave}.
Variable abi : char_abi.

Definition write_mode_am2321 (i2c_slave : slave) : M bus Z :=
  r <- call (I2cWrite []) (write_i2c_slave i2c_slave []) ;;
  if r =? -1 then
    printk "am2321 : Failed set to write mode for am2321.\n" [] ;;;
    ret (-1)
  else ret 0.

Definition wakeup_am2321 (i2c_slave : slave) : M bus Z :=
  r <- write_mode_am2321 i2c_slave ;;
  if r =? -1 then
    printk "am2321 : Failed wakeup am2321.\n" [] ;;;
    ret (-1)
  else
    usleep AM2321_WAIT_WAKEUP ;;;
    ret 0.

Definition calc_data (high low : byte) : float :=
  (int_to_double (Z.shiftl (char_val abi high) 8 + char_val abi low) / 10.0)%float.

Definition calc_hum : M bus float :=
  h <- load 2 ;; l <- load 3 ;; ret (calc_data h l).

Definition calc_temp : M bus float :=
  h <- load 4 ;; l <- load 5 ;; ret (calc_data h l).

Definition calc_discomfort : M bus float :=
  hum <- calc_hum ;;
  temp <- calc_temp ;;
  ret (0.81 * temp + 0.01 * hum * (0.99 * temp - 14.3) + 46.3)%float.

Definition check_err : M bus Z :=
  c <- load 2 ;;
  if 0x80 <=? char_val abi c then
    c' <- load 2 ;;
    printk "am2321 : Received error code : 0x%0x\n" [char_val abi c'] ;;;
    ret (-1)
  else ret 0.

(** Body of the inner loop of [check_crc]. *)
Definition crc_shift (clc_crcsum : Z) : Z :=
  if negb (Z.land clc_crcsum 1 =? 0)
  then Z.lxor (Z.shiftr clc_crcsum 1) 0xa001
  else Z.shiftr clc_crcsum 1.

(** The two nested loops of [check_crc], from [clc_crcsum = 0xffff]. *)
Definition clc_crcsum_loop : M bus Z :=
  for_loop 6 0
    (fun i clc_crcsum =>
       c <- load i ;;
       ret (for_local 8 0 (fun _ => crc_shift)
              (Z.lxor clc_crcsum (to_ushort (char_val abi c)))))
    0xffff.

Definition check_crc : M bus Z :=
  hi <- load 7 ;;
  lo <- load 6 ;;
  let rcv_crcsum := Z.shiftl (char_val abi hi) 8 + char_val abi lo in
  clc_crcsum <- clc_crcsum_loop ;;
  if rcv_crcsum =? clc_crcsum then ret 0
  else
    printk "am2321 : Failed CRC check sum. Receive CRC : 0x%0x, Calc CRC : 0x%0x\n"
           [rcv_crcsum; clc_crcsum] ;;;
    ret (-1).

Definition measure : M bus Z :=
  am2321 <- call (I2cGen I2C_DEV_1 AM2321_DEV_NAME AM2321_ID 1 3000)
                 (gen_i2c_slave I2C_DEV_1 AM2321_DEV_NAME AM2321_ID 1 3000) ;;
  r <- call I2cInit (init_i2c_slave am2321) ;;
  if r =? -1 then ret (-1) else
  (* Step 1 : Wakeup AM2321. *)
  r <- wakeup_am2321 am2321 ;;
  if r =? -1 then ret (-1) else
  (* Step 2 : Write data to measuring temperature and humidity from sensor. *)
  r <- write_mode_am2321 am2321 ;;
  if r =? -1 then ret (-1) else
  usleep AM2321_WAIT_WRITEMODE ;;;
  let write_data := [x03; x00; x04] in
  r <- call (I2cWrite write_data) (write_i2c_slave am2321 write_data) ;;
  if r =? -1 then ret (-1) else
  (* Step 3 : Recive data from AM2321. *)
  usleep AM2321_WAIT_READMODE ;;;
  r <- call_read am2321 8 ;;
  if r =? -1 then ret (-1) else
  r <- call I2cTerm (term_i2c_slave am2321) ;;
  if r =? -1 then ret (-1) else
  r <- call I2cDestroy (destroy_i2c_slave am2321) ;;
  if r =? -1 then ret (-1) else
  r <- check_err ;;
  if r =? -1 then ret (-1) else
  r <- check_crc ;;
  if r =? -1 then ret (-1) else
  ret 0.

(** The [while] loop of [measure_retry], entered with the current [count];
    [None] when [fuel] iterations did not reach a [return]. *)
Fixpoint measure_retry_loop (fuel : nat) (count : Z) : M bus (option Z) :=
  match fuel with
  | O => ret None
  | S fuel' =>
      r <- measure ;;
      if r =? -1 then
        let count := count + 1 in
        if I2C_SLAVE_MAX_RETRY <? count then
          printk "am2321 : Failed measure from am2321.\n" [] ;;;
          ret (Some (-1))
        else
          printk "am2321 : Failed measure from am2321. retry %d of %d\n"
                 [count; I2C_SLAVE_MAX_RETRY] ;;;
          usleep 300000 ;;;
          measure_retry_loop fuel' count
      else ret (Some 0)
  end.

Definition measure_retry (fuel : nat) : M bus (option Z) :=
  measure_retry_loop fuel 0.

Definition print_help : M bus unit :=
  printf "Usage: am2321 [OPTION]\n" [] ;;;
  printf "Receive the data from AM2321 which is I2C Slave device and print the value of temperature, humidity, discomfort index.\n\n" [] ;;;
  printf "  -c\tPrint the value in CSV format.\n" [] ;;;
  printf "  -j\tPrint the value in JSON format.\n" [] ;;;
  printf "  -r\tPrint the value in human readable format.\n" [] ;;;
  printf "  -h\tShow this message.\n\n" [] ;;;
  printf "Report bugs to mrkoh_t.bug-report@mem-notfound.net\n" [].

Definition opt_c : Z := 99.   (* 'c' *)
Definition opt_j : Z := 106.  (* 'j' *)
Definition opt_r : Z := 114.  (* 'r': shares the default branch of the switch *)
Definition opt_h : Z := 104.  (* 'h' *)

Definition dquote : string := String (Ascii.ascii_of_nat 34) EmptyString.

Definition json_format : string :=
  String.concat dquote
    ["{"; "Templature"; ":%.1f,"; "Humidity"; ":%.1f,"; "Discomfort"; ":%.1f}\n"].

(** [main]: [opts] are the values [getopt] returns before [-1], [format0]
    is the indeterminate initial value of the local [format]; [None] when a
    retry loop ran out of [fuel]. *)
Definition main (fuel : nat) (format0 : Z) (opts : list Z) : M bus (option Z) :=
  let format := fold_left (fun _ arg => arg) opts format0 in
  if format =? opt_h then
    print_help ;;;
    ret (Some 1)
  else
    r1 <- measure_retry fuel ;;
    match r1 with
    | None => ret None
    | Some _ =>
        usleep AM2321_WAIT_REFRESH ;;;
        r2 <- measure_retry fuel ;;
        match r2 with
        | None => ret None
        | Some r =>
            if r =? -1 then
              printf "Failed measure data from AM2321.\n" [] ;;;
              ret (Some 0)
            else
              temp <- calc_temp ;;
              hum <- calc_hum ;;
              discomfort <- calc_discomfort ;;
              (if format =? opt_c then
                 printf "%.1f,%.1f,%.1f\n" [temp; hum; discomfort]
               else if format =? opt_j then
                 printf json_format [temp; hum; discomfort]
               else
                 printf "Templature : %.1f\nHumidity   : %.1f\nDiscomfort : %.1f\n"
                        [temp; hum; discomfort]) ;;;
              ret (Some 0)
        end
    end.
End Driver.

(** ** The CRC16 of the specification

    Written from the specification's words, to be compared with the loops of
    [check_crc]: a 16-bit accumulator starting at 0xFFFF; each of the first
    six bytes is XORed into the low 8 bits only, followed by 8 shift steps. *)

Definition spec_xor_low8 (acc b : Z) : Z :=
  Z.lor (Z.land acc 0xFF00) (Z.lxor (Z.land acc 0xFF) b).

Definition spec_crc_step (acc : Z) : Z :=
  if Z.testbit acc 0 then Z.lxor (Z.shiftr acc 1) 0xA001 else Z.shiftr acc 1.

Definition spec_computeCrc16 (frame : list byte) : Z :=
  fold_left (fun acc b => Nat.iter 8 spec_crc_step (spec_xor_low8 acc (byte_to_Z b)))
            (firstn 6 frame) 0xFFFF.

(** The transmitted checksum: byte [6] low, byte [7] high. *)
Definition spec_receivedCrc (frame : list byte) : Z :=
  byte_to_Z (nth 6 frame x00) + 256 * byte_to_Z (nth 7 frame x00).

(** The value [decodeValue] describes: the unsigned 16-bit field in tenths. *)
Definition spec_decodeValue (highByte lowByte : byte) : float :=
  (PrimFloat.of_uint63 (Uint63.of_Z (Z.shiftl (byte_to_Z highByte) 8 + byte_to_Z lowByte))
   / 10.0)%float.

(** ** Frames and worlds used in the statements *)

(** A register prefix followed by its CRC16, low byte first. *)
Definition seal_frame (prefix : list byte) : list byte :=
  let crc := spec_computeCrc16 prefix in
  prefix ++ [byte_of_Z (Z.land crc 0xFF); byte_of_Z (Z.shiftr crc 8)].

(** Flip bit [k] of a byte, and of the byte at index [i] of a frame. *)
Definition flip_bit (k : Z) (b : byte) : byte :=
  byte_of_Z (Z.lxor (byte_to_Z b) (Z.shiftl 1 k)).

Definition flip_frame_bit (i : nat) (k : Z) (frame : list byte) : list byte :=
  firstn i frame ++ flip_bit k (nth i frame x00) :: skipn (S i) frame.

Definition with_frame {bus} (frame : list byte) (w : world bus) : world bus :=
  mkWorld frame (touched w) (i2c w) (out w).

Definition touch {bus} (idx : list nat) (w : world bus) : world bus :=
  mkWorld (register_data w) (touched w ++ idx) (i2c w) (out w).

Definition emit {bus} (es : list event) (w : world bus) : world bus :=
  mkWorld (register_data w) (touched w) (i2c w) (out w ++ es).

Definition is_retry_sleep (e : event) : bool :=
  match e with Usleep 300000 => true | _ => false end.

Definition is_attempt (e : event) : bool :=
  match e with I2cGen _ _ _ _ _ => true | _ => false end.

Definition is_release (e : event) : bool :=
  match e with I2cTerm | I2cDestroy => true | _ => false end.

(** ** A scripted transport

    A test double for the i2c-ctl library: every call that returns a status
    takes the next scripted answer ([0] once the script is used up), every
    read also delivers the next scripted frame. *)

Record script : Type := mkScript {
  answers : list Z;
  frames : list (list byte)
}.

Definition next_answer (s : script) : Z * script :=
  match answers s with
  | [] => (0, s)
  | r :: rs => (r, mkScript rs (frames s))
  end.

Definition next_frame (s : script) : list byte * script :=
  match frames s with
  | [] => ([], s)
  | f :: fs => (f, mkScript (answers s) fs)
  end.

#[export] Instance scripted_i2c : I2CCtl script unit := {|
  gen_i2c_slave := fun _ _ _ _ _ s => (tt, s);
  init_i2c_slave := fun _ s => next_answer s;
  write_i2c_slave := fun _ _ s => next_answer s;
  read_i2c_slave := fun _ _ s =>
    let (r, s1) := next_answer s in
    let (f, s2) := next_frame s1 in ((r, f), s2);
  term_i2c_slave := fun _ s => next_answer s;
  destroy_i2c_slave := fun _ s => next_answer s
|}.

Definition boot (s : script) : world script :=
  mkWorld (repeat x00 8) [] s [].

(** The frame of the end-to-end example, sealed with its CRC. *)
Definition example_frame : list byte := seal_frame [x03; x04; x02; x0a; x01; x00].

(** One pass of the outer loop of [check_crc] on the byte just loaded, and the
    value the six passes leave in [clc_crcsum]. *)
Definition crc_byte (abi : char_abi) (clc_crcsum : Z) (c : byte) : Z :=
  for_local 8 0 (fun _ => crc_shift) (Z.lxor clc_crcsum (to_ushort (char_val abi c))).

Definition clc_crcsum_of (abi : char_abi) (regs : list byte) : Z :=
  fold_left (fun acc i => crc_byte abi acc (nth i regs x00)) (seq 0 6) 0xffff.

(** [rcv_crcsum] as [check_crc] forms it. *)
Definition rcv_crcsum_of (abi : char_abi) (regs : list byte) : Z :=
  Z.shiftl (char_val abi (nth 7 regs x00)) 8 + char_val abi (nth 6 regs x00).

Definition crc_message : string :=
  "am2321 : Failed CRC check sum. Receive CRC : 0x%0x, Calc CRC : 0x%0x\n".

Definition err_message : string := "am2321 : Received error code : 0x%0x\n".


(** [w'] holds the same frame as [w], and between the two the program read
    [register_data] at indices below [n] only. *)
Definition frame_preserved_within {bus} (n : nat) (w w' : world bus) : Prop :=
  register_data w' = register_data w /\
  exists idx, touched w' = touched w ++ idx /\ Forall (fun i => (i < n)%nat) idx.

(** The discomfort index of the specification, in binary64 arithmetic. *)
Definition spec_decodeDiscomfortIndex (temp hum : float) : float :=
  (0.81 * temp + 0.01 * hum * (0.99 * temp - 14.3) + 46.3)%float.

(** ** One session, seen from the transport

    The calls [measure] makes when no step fails, in order. *)
Definition session_events : list event :=
  [I2cGen I2C_DEV_1 AM2321_DEV_NAME AM2321_ID 1 3000; I2cInit;
   I2cWrite []; Usleep AM2321_WAIT_WAKEUP;
   I2cWrite []; Usleep AM2321_WAIT_WRITEMODE;
   I2cWrite [x03; x00; x04]; Usleep AM2321_WAIT_READMODE;
   I2cRead 8; I2cTerm; I2cDestroy].

(** What the transport answers to those calls from state [b]: the seven
    statuses (init, wake write, mode write, command write, read, term,
    destroy), the bytes the read delivers, and the state it ends in. *)
Definition transport_run {bus slave} {ctl : I2CCtl bus slave} (b : bus)
  : list Z * list byte * bus :=
  let (s, b1) := gen_i2c_slave I2C_DEV_1 AM2321_DEV_NAME AM2321_ID 1 3000 b in
  let (r1, b2) := init_i2c_slave s b1 in
  let (r2, b3) := write_i2c_slave s [] b2 in
  let (r3, b4) := write_i2c_slave s [] b3 in
  let (r4, b5) := write_i2c_slave s [x03; x00; x04] b4 in
  let '((r5, data), b6) := read_i2c_slave s 8 b5 in
  let (r6, b7) := term_i2c_slave s b6 in
  let (r7, b8) := destroy_i2c_slave s b7 in
  ([r1; r2; r3; r4; r5; r6; r7], data, b8).

(** Every step succeeded: no status is [-1]. *)
Definition steps_ok (rs : list Z) : bool := forallb (fun r => negb (r =? -1)) rs.

(** The world in which [measure] validates the frame after a session without
    transport failure. *)
Definition received {bus slave} {ctl : I2CCtl bus slave} (w : world bus) : world bus :=
  let '(_, data, b) := transport_run (i2c w) in
  mkWorld (store_front 8 data (register_data w)) (touched w) b (out w ++ session_events).

(** ** Retries

    [retried abi c k w w']: from [w], with [count = c], [k] consecutive
    attempts failed, each followed by the retry notice and the 300 ms sleep,
    leaving the world [w']. *)
Definition retry_message : string :=
  "am2321 : Failed measure from am2321. retry %d of %d\n".

Definition failed_message : string := "am2321 : Failed measure from am2321.\n".

Inductive retried {bus slave} {ctl : I2CCtl bus slave} (abi : char_abi)
  : Z -> nat -> world bus -> world bus -> Prop :=
| retried_none c w : retried abi c 0 w w
| retried_more c k w w1 w2 :
    measure abi w = (-1, w1) ->
    retried abi (c + 1) k
            (emit [Printk retry_message [c + 1; I2C_SLAVE_MAX_RETRY]; Usleep 300000] w1)
            w2 ->
    retried abi c (S k) w w2.

(** Number of events satisfying [p] that [w'] logged. *)
Definition count_events {bus} (p : event -> bool) (w : world bus) : nat :=
  List.length (filter p (out w)).

(** Scripts for the scripted transport: a session whose [n]-th status
    (counting from 0: init, wake write, mode write, command write, read,
    term, destroy) is the first to fail, and one in which every attempt
    fails at initialisation. *)
Definition fails_at (n : nat) : script := mkScript (repeat 0 n ++ [-1]) [example_frame].

Definition always_fails : script := mkScript (repeat (-1) 16) [].

(** The first four attempts fail at initialisation, the fifth succeeds and
    reads the example frame. *)
Definition fifth_succeeds : script := mkScript [-1; -1; -1; -1] [example_frame].

(** A frame with the error bit set in byte [2] and a wrong checksum. *)
Definition doubly_bad_frame : list byte := [x03; x04; x80; x0a; x01; x00; x00; x00].

Definition help_events : list event :=
  [Printf "Usage: am2321 [OPTION]\n" [];
   Printf "Receive the data from AM2321 which is I2C Slave device and print the value of temperature, humidity, discomfort index.\n\n" [];
   Printf "  -c\tPrint the value in CSV format.\n" [];
   Printf "  -j\tPrint the value in JSON format.\n" [];
   Printf "  -r\tPrint the value in human readable format.\n" [];
   Printf "  -h\tShow this message.\n\n" [];
   Printf "Report bugs to mrkoh_t.bug-report@mem-notfound.net\n" []].

Definition failure_line : string := "Failed measure data from AM2321.\n".

From Stdlib Require Import FloatOps SpecFloat.

(** ** Further notions used in the statements *)

(** The frame with the byte at index [i] replaced by [b]. *)
Definition replace_byte (i : nat) (b : byte) (frame : list byte) : list byte :=
  firstn i frame ++ b :: skipn (S i) frame.

(** What the validation at the end of a session without transport failure
    prints: the error code, else the checksum mismatch, else nothing. *)
Definition validation_report (abi : char_abi) (frame : list byte) : list event :=
  if 0x80 <=? char_val abi (nth 2 frame x00) then
    [Printk err_message [char_val abi (nth 2 frame x00)]]
  else if rcv_crcsum_of abi frame =? clc_crcsum_of abi frame then []
  else [Printk crc_message [rcv_crcsum_of abi frame; clc_crcsum_of abi frame]].

(** The format [main] prints the three values with. *)
Definition output_format (format : Z) : string :=
  if format =? opt_c then "%.1f,%.1f,%.1f\n"
  else if format =? opt_j then json_format
  else "Templature : %.1f\nHumidity   : %.1f\nDiscomfort : %.1f\n".

Definition is_refresh_sleep (e : event) : bool :=
  match e with Usleep 2000000 => true | _ => false end.

(** The number of tenths nearest to a non-negative finite [double]. *)
Definition tenths_of (x : float) : Z :=
  match Prim2SF (x * 10)%float with
  | S754_finite false m e =>
      if 0 <=? e then Z.pos m * 2 ^ e
      else (Z.pos m + 2 ^ (- e - 1)) / 2 ^ (- e)
  | _ => 0
  end.

(** [p] holds of the [fuel] integers from [z] on. *)
Fixpoint all_from (fuel : nat) (z : Z) (p : Z -> bool) : bool :=
  match fuel with
  | O => true
  | S fuel' => p z && all_from fuel' (z + 1) p
  end.

(** What is checked of the decoding of each 16-bit field. *)
Definition decodes_well (n : Z) : bool :=
  let x := (int_to_double n / 10.0)%float in
  PrimFloat.leb 0 x && PrimFloat.leb x 6553.5 && (tenths_of x =? n).
(** * Bytes and bits *)

Lemma byte_to_Z_range (b : byte) : 0 <= byte_to_Z b < 256.
Proof.
  unfold byte_to_Z. pose proof (Byte.to_N_bounded b). lia.
Qed.

Lemma byte_to_of_Z (z : Z) : byte_to_Z (byte_of_Z z) = z mod 256.
Proof.
  unfold byte_of_Z, byte_to_Z.
  assert (Hr : 0 <= z mod 256 < 256) by (apply Z.mod_pos_bound; lia).
  destruct (Byte.of_N (Z.to_N (z mod 256))) as [b|] eqn:E.
  - apply Byte.to_of_N in E. rewrite E. lia.
  - apply Byte.of_N_None_iff in E. lia.
Qed.

Lemma lxor_below_pow2 (n a b : Z) :
  0 <= n -> 0 <= a < 2 ^ n -> 0 <= b < 2 ^ n -> 0 <= Z.lxor a b < 2 ^ n.
Proof.
  intros Hn Ha Hb.
  assert (Hhigh : forall x i, 0 <= x < 2 ^ n -> n <= i -> Z.testbit x i = false).
  { intros x i Hx Hi. rewrite <- (Z.mod_small x (2 ^ n)) by assumption.
    apply Z.mod_pow2_bits_high. lia. }
  assert (E : Z.lxor a b = Z.lxor a b mod 2 ^ n).
  { rewrite <- Z.land_ones by assumption.
    apply Z.bits_inj'. intros i Hi.
    rewrite Z.land_spec, Z.lxor_spec, Z.testbit_ones_nonneg by assumption.
    destruct (Z.ltb_spec i n) as [Hlt|Hge].
    - rewrite andb_true_r. reflexivity.
    - rewrite (Hhigh a i), (Hhigh b i) by assumption. reflexivity. }
  rewrite E. apply Z.mod_pos_bound. lia.
Qed.

Lemma shiftr1_range (c : Z) : 0 <= c < 65536 -> 0 <= Z.shiftr c 1 < 32768.
Proof.
  intros H. rewrite Z.shiftr_div_pow2 by lia. change (2 ^ 1) with 2.
  split; [apply Z.div_pos; lia | apply Z.div_lt_upper_bound; lia].
Qed.

Lemma crc_shift_range (c : Z) : 0 <= c < 65536 -> 0 <= crc_shift c < 65536.
Proof.
  intros H. pose proof (shiftr1_range c H) as Hs. unfold crc_shift.
  destruct (negb (Z.land c 1 =? 0)); [|lia].
  apply (lxor_below_pow2 16); lia.
Qed.

Lemma for_local_iter {A} (f : A -> A) (n j : nat) (a : A) :
  for_local n j (fun _ => f) a = Nat.iter n f a.
Proof.
  revert j a. induction n as [|n IH]; intros j a; [reflexivity|].
  cbn [for_local]. rewrite IH, <- Nat.iter_succ_r. reflexivity.
Qed.

Lemma crc_shift_is_spec_step (c : Z) : crc_shift c = spec_crc_step c.
Proof.
  unfold crc_shift, spec_crc_step.
  change 1 with (Z.ones 1) at 1. rewrite Z.land_ones by lia.
  change (2 ^ 1) with 2. rewrite Z.bit0_eqb.
  pose proof (Z.mod_pos_bound c 2 ltac:(lia)) as Hm.
  destruct (c mod 2 =? 0) eqn:E0, (c mod 2 =? 1) eqn:E1; cbn [negb]; try reflexivity; lia.
Qed.

Lemma iter_crc_shift_range (n : nat) (c : Z) :
  0 <= c < 65536 -> 0 <= Nat.iter n crc_shift c < 65536.
Proof.
  intros H. apply Nat.iter_invariant; [exact crc_shift_range | exact H].
Qed.

Lemma iter_crc_shift_is_spec (n : nat) (c : Z) :
  Nat.iter n crc_shift c = Nat.iter n spec_crc_step c.
Proof.
  induction n as [|n IH]; [reflexivity|].
  rewrite !Nat.iter_succ, IH. apply crc_shift_is_spec_step.
Qed.

Lemma xor_low8_is_lxor (acc b : Z) :
  0 <= acc < 65536 -> 0 <= b < 256 -> spec_xor_low8 acc b = Z.lxor acc b.
Proof.
  intros Ha Hb. unfold spec_xor_low8.
  change 0xFF with (Z.ones 8). change 0xFF00 with (Z.shiftl (Z.ones 8) 8).
  apply Z.bits_inj'. intros i Hi.
  rewrite Z.lor_spec, !Z.lxor_spec, !Z.land_spec.
  assert (Hacc : 16 <= i -> Z.testbit acc i = false).
  { intros Hge. rewrite <- (Z.mod_small acc (2 ^ 16)) by (change (2 ^ 16) with 65536; lia).
    apply Z.mod_pow2_bits_high. lia. }
  assert (Hbb : 8 <= i -> Z.testbit b i = false).
  { intros Hge. rewrite <- (Z.mod_small b (2 ^ 8)) by (change (2 ^ 8) with 256; lia).
    apply Z.mod_pow2_bits_high. lia. }
  rewrite Z.shiftl_spec by assumption.
  destruct (Z_lt_le_dec i 8) as [Hlt|Hge].
  - rewrite (Z.testbit_neg_r _ (i - 8)) by lia.
    rewrite Z.ones_spec_low by lia.
    rewrite andb_false_r, andb_true_r. reflexivity.
  - rewrite (Z.ones_spec_high 8 i) by lia. rewrite Hbb by lia.
    rewrite andb_false_r, xorb_false_r. cbn [xorb orb].
    destruct (Z_lt_le_dec i 16) as [Hlt|Hge16].
    + rewrite Z.ones_spec_low by lia.
      rewrite andb_true_r, orb_false_r, xorb_false_r. reflexivity.
    + rewrite Hacc by lia. reflexivity.
Qed.

Lemma crc_byte_unsigned_range (acc : Z) (c : byte) :
  0 <= acc < 65536 -> 0 <= crc_byte UnsignedChar acc c < 65536.
Proof.
  intros Ha. unfold crc_byte. rewrite for_local_iter.
  apply iter_crc_shift_range. pose proof (byte_to_Z_range c) as Hc.
  unfold to_ushort, char_val. rewrite Z.mod_small by lia.
  apply (lxor_below_pow2 16); lia.
Qed.

Lemma crc_byte_unsigned_is_spec (acc : Z) (c : byte) :
  0 <= acc < 65536 ->
  crc_byte UnsignedChar acc c = Nat.iter 8 spec_crc_step (spec_xor_low8 acc (byte_to_Z c)).
Proof.
  intros Ha. unfold crc_byte. pose proof (byte_to_Z_range c) as Hc.
  rewrite for_local_iter, iter_crc_shift_is_spec, xor_low8_is_lxor by lia.
  unfold to_ushort, char_val. rewrite Z.mod_small by lia. reflexivity.
Qed.

(** * What each decoding and validation function does to the world *)

Section Runs.
Context {bus : Type}.
Variable abi : char_abi.
Implicit Type w : world bus.

Lemma calc_hum_run w :
  calc_hum abi w =
  (calc_data abi (nth 2 (register_data w) x00) (nth 3 (register_data w) x00),
   touch [2; 3]%nat w).
Proof.
  unfold calc_hum, bind, load, ret, touch. cbn.
  rewrite <- app_assoc. reflexivity.
Qed.

Lemma calc_temp_run w :
  calc_temp abi w =
  (calc_data abi (nth 4 (register_data w) x00) (nth 5 (register_data w) x00),
   touch [4; 5]%nat w).
Proof.
  unfold calc_temp, bind, load, ret, touch. cbn.
  rewrite <- app_assoc. reflexivity.
Qed.

Lemma calc_discomfort_run w :
  calc_discomfort abi w =
  (spec_decodeDiscomfortIndex
     (calc_data abi (nth 4 (register_data w) x00) (nth 5 (register_data w) x00))
     (calc_data abi (nth 2 (register_data w) x00) (nth 3 (register_data w) x00)),
   touch [2; 3; 4; 5]%nat w).
Proof.
  unfold calc_discomfort, bind. rewrite calc_hum_run, calc_temp_run.
  unfold ret, touch. cbn. rewrite <- app_assoc. reflexivity.
Qed.

Lemma check_err_run w :
  check_err abi w =
  let code := char_val abi (nth 2 (register_data w) x00) in
  if 0x80 <=? code
  then (-1, emit [Printk err_message [code]] (touch [2; 2]%nat w))
  else (0, touch [2]%nat w).
Proof.
  unfold check_err, bind, load. cbn.
  destruct (128 <=? char_val abi (nth 2 (register_data w) x00)); cbn.
  - unfold printk, log, ret, emit, touch. cbn. rewrite <- app_assoc. reflexivity.
  - reflexivity.
Qed.

Lemma clc_crcsum_loop_run w :
  clc_crcsum_loop abi w =
  (clc_crcsum_of abi (register_data w), touch [0; 1; 2; 3; 4; 5]%nat w).
Proof.
  unfold clc_crcsum_loop, clc_crcsum_of, touch.
  cbv [for_loop bind load ret fold_left seq].
  cbn [register_data touched i2c out].
  rewrite <- !app_assoc. unfold crc_byte. reflexivity.
Qed.

Lemma check_crc_run w :
  check_crc abi w =
  let rcv := rcv_crcsum_of abi (register_data w) in
  let clc := clc_crcsum_of abi (register_data w) in
  if rcv =? clc
  then (0, touch [7; 6; 0; 1; 2; 3; 4; 5]%nat w)
  else (-1, emit [Printk crc_message [rcv; clc]]
                 (touch [7; 6; 0; 1; 2; 3; 4; 5]%nat w)).
Proof.
  unfold check_crc. unfold bind at 1 2 3. unfold load at 1 2.
  rewrite clc_crcsum_loop_run.
  cbn [register_data touched i2c out touch].
  unfold rcv_crcsum_of. cbv zeta.
  destruct (_ =? _).
  - unfold ret, touch. cbn [register_data touched i2c out].
    rewrite <- !app_assoc. reflexivity.
  - unfold bind, printk, log, ret, emit, touch.
    cbn [register_data touched i2c out].
    rewrite <- !app_assoc. reflexivity.
Qed.
End Runs.

(** * The checksum of [check_crc] against the specification's CRC16 *)

Lemma fold_crc_byte_is_spec (l : list byte) (acc : Z) :
  0 <= acc < 65536 ->
  fold_left (crc_byte UnsignedChar) l acc =
  fold_left (fun a b => Nat.iter 8 spec_crc_step (spec_xor_low8 a (byte_to_Z b))) l acc.
Proof.
  revert acc. induction l as [|b l IH]; intros acc Hacc; [reflexivity|].
  cbn [fold_left]. rewrite <- crc_byte_unsigned_is_spec by assumption.
  apply IH, crc_byte_unsigned_range, Hacc.
Qed.

Lemma fold_crc_byte_range (l : list byte) (acc : Z) :
  0 <= acc < 65536 -> 0 <= fold_left (crc_byte UnsignedChar) l acc < 65536.
Proof.
  revert acc. induction l as [|b l IH]; intros acc Hacc; [exact Hacc|].
  cbn [fold_left]. apply IH, crc_byte_unsigned_range, Hacc.
Qed.

Lemma clc_crcsum_of_prefix (abi : char_abi) (regs : list byte) :
  (6 <= List.length regs)%nat ->
  clc_crcsum_of abi regs = fold_left (crc_byte abi) (firstn 6 regs) 0xffff.
Proof.
  intros Hlen. unfold clc_crcsum_of.
  do 6 (destruct regs as [|? regs]; [cbn in Hlen; lia|]).
  cbn [seq fold_left firstn nth]. reflexivity.
Qed.

(** [clc_crcsum] never leaves the 16-bit range, so the [int] holding it
    never wraps. *)
Lemma clc_crcsum_range (regs : list byte) :
  (6 <= List.length regs)%nat -> 0 <= clc_crcsum_of UnsignedChar regs < 65536.
Proof.
  intros Hlen. rewrite clc_crcsum_of_prefix by assumption.
  apply fold_crc_byte_range. lia.
Qed.

Lemma clc_crcsum_is_spec (regs : list byte) :
  (6 <= List.length regs)%nat ->
  clc_crcsum_of UnsignedChar regs = spec_computeCrc16 regs.
Proof.
  intros Hlen. rewrite clc_crcsum_of_prefix by assumption.
  unfold spec_computeCrc16. apply fold_crc_byte_is_spec. lia.
Qed.

Lemma rcv_crcsum_is_spec (regs : list byte) :
  rcv_crcsum_of UnsignedChar regs = spec_receivedCrc regs.
Proof.
  unfold rcv_crcsum_of, spec_receivedCrc, char_val.
  rewrite Z.shiftl_mul_pow2 by lia. change (2 ^ 8) with 256. lia.
Qed.

Lemma spec_computeCrc16_range (regs : list byte) :
  (6 <= List.length regs)%nat -> 0 <= spec_computeCrc16 regs < 65536.
Proof.
  intros Hlen. rewrite <- clc_crcsum_is_spec by assumption.
  apply clc_crcsum_range, Hlen.
Qed.

(** The verdict of [check_crc] on an 8-byte frame, in the specification's terms. *)
Lemma check_crc_verdict {bus} (w : world bus) :
  List.length (register_data w) = 8%nat ->
  (spec_receivedCrc (register_data w) = spec_computeCrc16 (register_data w) /\
   fst (check_crc UnsignedChar w) = 0) \/
  (spec_receivedCrc (register_data w) <> spec_computeCrc16 (register_data w) /\
   fst (check_crc UnsignedChar w) = -1).
Proof.
  intros Hlen. rewrite check_crc_run. cbv zeta.
  rewrite rcv_crcsum_is_spec, clc_crcsum_is_spec by lia.
  destruct (Z.eqb_spec (spec_receivedCrc (register_data w))
                       (spec_computeCrc16 (register_data w))) as [E|E];
    [left | right]; split; (exact E || reflexivity).
Qed.

(** C1: for every 8-byte frame, the checksum [check_crc] accumulates over
    bytes [0..5] is the CRC16 of the specification (start at 0xFFFF, XOR each
    byte into the low 8 bits, then 8 shift/XOR-0xA001 steps), and it is the
    value [check_crc] compares with the received checksum and reports. *)
Theorem check_crc_computes_spec_crc16 {bus} (w : world bus) :
  List.length (register_data w) = 8%nat ->
  fst (clc_crcsum_loop UnsignedChar w) = spec_computeCrc16 (register_data w) /\
  check_crc UnsignedChar w =
  (if spec_receivedCrc (register_data w) =? spec_computeCrc16 (register_data w)
   then (0, touch [7; 6; 0; 1; 2; 3; 4; 5]%nat w)
   else (-1, emit [Printk crc_message [spec_receivedCrc (register_data w);
                                        spec_computeCrc16 (register_data w)]]
                  (touch [7; 6; 0; 1; 2; 3; 4; 5]%nat w))).
Proof.
  intros Hlen. split.
  - rewrite clc_crcsum_loop_run. cbn [fst]. apply clc_crcsum_is_spec. lia.
  - rewrite check_crc_run. cbv zeta.
    rewrite rcv_crcsum_is_spec, clc_crcsum_is_spec by lia. reflexivity.
Qed.

Lemma check_crc_computes_spec_crc16_witness :
  List.length (register_data (boot (mkScript [] []))) = 8%nat /\
  fst (clc_crcsum_loop UnsignedChar (boot (mkScript [] []))) = 0x1b00.
Proof.
  split; [reflexivity|].
  destruct (check_crc_computes_spec_crc16 (boot (mkScript [] [])) eq_refl) as [H _].
  rewrite H. vm_compute. reflexivity.
Defined.

(** * Sealed frames pass, damaged checksums fail *)

Lemma firstn_6_seal (p : list byte) :
  List.length p = 6%nat -> firstn 6 (seal_frame p) = firstn 6 p.
Proof.
  intros Hlen. unfold seal_frame.
  rewrite firstn_app, Hlen. cbn [Nat.sub firstn]. apply app_nil_r.
Qed.

Lemma spec_crc_seal (p : list byte) :
  List.length p = 6%nat -> spec_computeCrc16 (seal_frame p) = spec_computeCrc16 p.
Proof.
  intros Hlen. unfold spec_computeCrc16 at 1. rewrite firstn_6_seal by assumption.
  reflexivity.
Qed.

Lemma length_seal (p : list byte) :
  List.length p = 6%nat -> List.length (seal_frame p) = 8%nat.
Proof.
  intros Hlen. unfold seal_frame. rewrite length_app, Hlen. reflexivity.
Qed.

Lemma crc_low_byte (c : Z) : byte_to_Z (byte_of_Z (Z.land c 0xFF)) = c mod 256.
Proof.
  rewrite byte_to_of_Z. change 0xFF with (Z.ones 8).
  rewrite Z.land_ones by lia. change (2 ^ 8) with 256.
  apply Z.mod_mod. lia.
Qed.

Lemma crc_high_byte (c : Z) :
  0 <= c < 65536 -> byte_to_Z (byte_of_Z (Z.shiftr c 8)) = c / 256.
Proof.
  intros Hc. rewrite byte_to_of_Z, Z.shiftr_div_pow2 by lia. change (2 ^ 8) with 256.
  apply Z.mod_small. split; [apply Z.div_pos; lia | apply Z.div_lt_upper_bound; lia].
Qed.

Lemma spec_received_seal (p : list byte) :
  List.length p = 6%nat -> spec_receivedCrc (seal_frame p) = spec_computeCrc16 p.
Proof.
  intros Hlen.
  assert (Hc : 0 <= spec_computeCrc16 p < 65536) by (apply spec_computeCrc16_range; lia).
  unfold spec_receivedCrc, seal_frame.
  do 6 (destruct p as [|? p]; [discriminate Hlen|]).
  destruct p; [|discriminate Hlen].
  cbn [app nth]. rewrite crc_low_byte, crc_high_byte by assumption.
  pose proof (Z.div_mod (spec_computeCrc16 [b; b0; b1; b2; b3; b4]) 256 ltac:(lia)).
  lia.
Qed.

Lemma flip_bit_value (k : Z) (b : byte) :
  0 <= k < 8 ->
  byte_to_Z (flip_bit k b) = Z.lxor (byte_to_Z b) (2 ^ k) /\
  byte_to_Z (flip_bit k b) <> byte_to_Z b.
Proof.
  intros Hk. unfold flip_bit. rewrite byte_to_of_Z, Z.shiftl_1_l.
  pose proof (byte_to_Z_range b) as Hb.
  assert (Hp : 0 < 2 ^ k < 256).
  { split; [apply Z.pow_pos_nonneg; lia|].
    change 256 with (2 ^ 8). apply Z.pow_lt_mono_r; lia. }
  assert (Hx : 0 <= Z.lxor (byte_to_Z b) (2 ^ k) < 2 ^ 8)
    by (apply lxor_below_pow2; change (2 ^ 8) with 256; lia).
  change (2 ^ 8) with 256 in Hx. rewrite Z.mod_small by lia.
  split; [reflexivity|]. intros E.
  assert (E0 : Z.lxor (byte_to_Z b) (Z.lxor (byte_to_Z b) (2 ^ k)) = 0)
    by (rewrite E; apply Z.lxor_nilpotent).
  rewrite <- Z.lxor_assoc, Z.lxor_nilpotent, Z.lxor_0_l in E0. lia.
Qed.

Lemma spec_crc_flip_tail (i : nat) (k : Z) (f : list byte) :
  (6 <= i <= List.length f)%nat ->
  spec_computeCrc16 (flip_frame_bit i k f) = spec_computeCrc16 f.
Proof.
  intros Hi. unfold spec_computeCrc16, flip_frame_bit. f_equal.
  rewrite firstn_app, firstn_firstn, Nat.min_l by lia.
  rewrite length_firstn, Nat.min_l by lia.
  replace (6 - i)%nat with 0%nat by lia. cbn [firstn]. apply app_nil_r.
Qed.

(** C2: for every 6-byte register prefix, the frame sealed with the correctly
    computed CRC16 (low byte at [6], high byte at [7]) passes [check_crc],
    and the frame with any single bit of byte [6] or [7] flipped fails it. *)
Theorem sealed_frame_roundtrip {bus} (w : world bus) (p : list byte) :
  List.length p = 6%nat ->
  fst (check_crc UnsignedChar (with_frame (seal_frame p) w)) = 0 /\
  forall (i : nat) (k : Z),
    (i = 6 \/ i = 7)%nat -> 0 <= k < 8 ->
    fst (check_crc UnsignedChar (with_frame (flip_frame_bit i k (seal_frame p)) w)) = -1.
Proof.
  intros Hlen.
  pose proof (length_seal p Hlen) as Hlen8.
  pose proof (spec_received_seal p Hlen) as Hrcv.
  pose proof (spec_crc_seal p Hlen) as Hcrc.
  split.
  - destruct (check_crc_verdict (with_frame (seal_frame p) w)) as [E|E];
      [exact Hlen8 | | ]; cbn [with_frame register_data] in E.
    + apply E.
    + exfalso. apply (proj1 E). congruence.
  - intros i k Hi Hk.
    set (f' := flip_frame_bit i k (seal_frame p)).
    assert (Hlen' : List.length f' = 8%nat).
    { unfold f', flip_frame_bit. rewrite length_app, length_firstn. cbn [List.length].
      rewrite length_skipn. lia. }
    assert (Hne : spec_receivedCrc f' <> spec_computeCrc16 f').
    { unfold f'. rewrite spec_crc_flip_tail by lia. rewrite Hcrc, <- Hrcv.
      unfold spec_receivedCrc, flip_frame_bit.
      remember (seal_frame p) as f eqn:Ef.
      do 8 (destruct f as [|? f]; [discriminate Hlen8|]).
      destruct f; [|discriminate Hlen8].
      destruct Hi as [-> | ->]; cbn [firstn skipn app nth].
      - pose proof (flip_bit_value k b5 Hk) as [_ Hd].
        pose proof (byte_to_Z_range b5). pose proof (byte_to_Z_range (flip_bit k b5)). lia.
      - pose proof (flip_bit_value k b6 Hk) as [_ Hd].
        pose proof (byte_to_Z_range b6). pose proof (byte_to_Z_range (flip_bit k b6)). lia. }
    destruct (check_crc_verdict (with_frame f' w)) as [E|E];
      [exact Hlen' | | ]; cbn [with_frame register_data] in E.
    + exfalso. apply Hne, E.
    + apply E.
Qed.

Lemma sealed_frame_roundtrip_witness :
  List.length [x03; x04; x02; x0a; x01; x00] = 6%nat /\
  fst (check_crc UnsignedChar (with_frame example_frame (boot (mkScript [] [])))) = 0 /\
  fst (check_crc UnsignedChar
         (with_frame (flip_frame_bit 7 3 example_frame) (boot (mkScript [] [])))) = -1.
Proof.
  split; [reflexivity|].
  destruct (sealed_frame_roundtrip (boot (mkScript [] []))
              [x03; x04; x02; x0a; x01; x00] eq_refl) as [Hok Hflip].
  split; [exact Hok|].
  apply (Hflip 7%nat 3); [right; reflexivity | lia].
Defined.

(** * Status check *)

Lemma high_bit_iff_ge_0x80 (c : byte) :
  Z.testbit (byte_to_Z c) 7 = (0x80 <=? byte_to_Z c).
Proof. destruct c; reflexivity. Qed.

(** C3: [check_err] fails (returns -1, printing the code) exactly when frame
    byte [2] has its high bit set, i.e. is at least 0x80: it fails for the
    status bytes 0x80 and 0xFF and succeeds for 0x00 and 0x7F. *)
Theorem check_err_high_bit {bus} (w : world bus) :
  check_err UnsignedChar w =
    (if Z.testbit (byte_to_Z (nth 2 (register_data w) x00)) 7
     then (-1, emit [Printk err_message [byte_to_Z (nth 2 (register_data w) x00)]]
                    (touch [2; 2]%nat w))
     else (0, touch [2]%nat w)) /\
  (fst (check_err UnsignedChar w) = -1 <->
   0x80 <= byte_to_Z (nth 2 (register_data w) x00)) /\
  (fst (check_err UnsignedChar w) = 0 <->
   byte_to_Z (nth 2 (register_data w) x00) < 0x80) /\
  (forall b0 b1 rest,
      fst (check_err UnsignedChar (with_frame (b0 :: b1 :: x80 :: rest) w)) = -1 /\
      fst (check_err UnsignedChar (with_frame (b0 :: b1 :: xff :: rest) w)) = -1 /\
      fst (check_err UnsignedChar (with_frame (b0 :: b1 :: x00 :: rest) w)) = 0 /\
      fst (check_err UnsignedChar (with_frame (b0 :: b1 :: x7f :: rest) w)) = 0).
Proof.
  rewrite check_err_run. cbv zeta. cbn [char_val].
  rewrite high_bit_iff_ge_0x80.
  split; [reflexivity|].
  destruct (Z.leb_spec 0x80 (byte_to_Z (nth 2 (register_data w) x00))) as [H|H];
    cbn [fst].
  - split; [|split].
    + split; [intros _; exact H | reflexivity].
    + split; [discriminate | lia].
    + intros b0 b1 rest. rewrite !check_err_run. repeat split.
  - split; [|split].
    + split; [discriminate | lia].
    + split; [intros _; exact H | reflexivity].
    + intros b0 b1 rest. rewrite !check_err_run. repeat split.
Qed.

(** On an ABI where plain [char] is signed the comparison with 0x80 is never
    true: [check_err] accepts every frame there. *)
Remark check_err_signed_char_accepts {bus} (w : world bus) :
  fst (check_err SignedChar w) = 0.
Proof.
  rewrite check_err_run. cbv zeta. cbn [char_val].
  pose proof (byte_to_Z_range (nth 2 (register_data w) x00)) as Hr.
  destruct (Z.ltb_spec (byte_to_Z (nth 2 (register_data w) x00)) 128) as [Hlt|Hge];
    match goal with
    | |- context [?a <=? ?b] => destruct (Z.leb_spec a b) as [H|H]
    end; try reflexivity; lia.
Qed.

(** On such an ABI the checksum bytes are sign-extended too, and the
    correctly sealed example frame is rejected by [check_crc]. *)
Remark check_crc_signed_char_rejects_sealed {bus} (w : world bus) :
  fst (check_crc SignedChar (with_frame example_frame w)) = -1.
Proof.
  rewrite check_crc_run. cbv zeta. cbn [with_frame register_data].
  vm_compute. reflexivity.
Qed.

(** * Decoding *)

Lemma calc_data_unsigned_field (high low : byte) :
  0 <= Z.shiftl (char_val UnsignedChar high) 8 + char_val UnsignedChar low < 65536.
Proof.
  pose proof (byte_to_Z_range high). pose proof (byte_to_Z_range low).
  cbn [char_val]. rewrite Z.shiftl_mul_pow2 by lia. change (2 ^ 8) with 256. lia.
Qed.

(** C4: for all bytes, [calc_data] is ((high << 8) + low) / 10.0 on the
    unsigned 16-bit field; decodeValue(0x00,0x00) = 0.0, (0x01,0x00) = 25.6,
    (0x00,0x0A) = 1.0; humidity is decoded from bytes [2],[3] and temperature
    from bytes [4],[5]. *)
Theorem calc_data_unsigned_tenths :
  (forall high low : byte,
      calc_data UnsignedChar high low = spec_decodeValue high low) /\
  calc_data UnsignedChar x00 x00 = 0.0%float /\
  calc_data UnsignedChar x01 x00 = 25.6%float /\
  calc_data UnsignedChar x00 x0a = 1.0%float /\
  calc_data UnsignedChar xff xff = 6553.5%float /\
  (forall bus (w : world bus),
      fst (calc_hum UnsignedChar w) =
      spec_decodeValue (nth 2 (register_data w) x00) (nth 3 (register_data w) x00) /\
      fst (calc_temp UnsignedChar w) =
      spec_decodeValue (nth 4 (register_data w) x00) (nth 5 (register_data w) x00)).
Proof.
  assert (Hgen : forall high low : byte,
             calc_data UnsignedChar high low = spec_decodeValue high low).
  { intros high low. unfold calc_data, spec_decodeValue, int_to_double.
    pose proof (calc_data_unsigned_field high low) as Hr.
    destruct (Z.ltb_spec (Z.shiftl (char_val UnsignedChar high) 8
                          + char_val UnsignedChar low) 0) as [Hneg|_]; [lia|].
    reflexivity. }
  split; [exact Hgen|].
  repeat (split; [vm_compute; reflexivity|]).
  intros bus w. rewrite calc_hum_run, calc_temp_run. cbn [fst].
  rewrite !Hgen. split; reflexivity.
Qed.

(** C8: [calc_discomfort] returns 0.81*temp + 0.01*hum*(0.99*temp - 14.3)
    + 46.3 for the decoded temperature and humidity of the frame; the frame
    03 04 02 0A 01 00 with its CRC passes both checks and decodes to humidity
    52.2, temperature 25.6 and the discomfort index of the formula. *)
Theorem calc_discomfort_formula :
  (forall (abi : char_abi) bus (w : world bus),
      fst (calc_discomfort abi w) =
      spec_decodeDiscomfortIndex (fst (calc_temp abi w)) (fst (calc_hum abi w))) /\
  (forall bus (w : world bus),
      let w1 := with_frame example_frame w in
      example_frame = [x03; x04; x02; x0a; x01; x00; xd1; xc2] /\
      fst (check_err UnsignedChar w1) = 0 /\
      fst (check_crc UnsignedChar w1) = 0 /\
      fst (calc_hum UnsignedChar w1) = 52.2%float /\
      fst (calc_temp UnsignedChar w1) = 25.6%float /\
      fst (calc_discomfort UnsignedChar w1) =
        spec_decodeDiscomfortIndex 25.6%float 52.2%float).
Proof.
  split.
  - intros abi bus w.
    rewrite calc_discomfort_run, calc_temp_run, calc_hum_run. reflexivity.
  - intros bus w. cbv zeta.
    rewrite check_err_run, check_crc_run, calc_hum_run, calc_temp_run,
      calc_discomfort_run.
    cbn [with_frame register_data].
    repeat split; vm_compute; reflexivity.
Qed.

(** * The frame is read-only for the decoders and validators *)

Lemma touch_preserves {bus} (n : nat) (idx : list nat) (w : world bus) :
  Forall (fun i => (i < n)%nat) idx -> frame_preserved_within n w (touch idx w).
Proof.
  intros H. split; [reflexivity|]. exists idx. split; [reflexivity | exact H].
Qed.

Lemma emit_touch_preserves {bus} (n : nat) (idx : list nat) (es : list event)
      (w : world bus) :
  Forall (fun i => (i < n)%nat) idx ->
  frame_preserved_within n w (emit es (touch idx w)).
Proof.
  intros H. split; [reflexivity|]. exists idx. split; [reflexivity | exact H].
Qed.

(** C10: [calc_hum], [calc_temp], [calc_discomfort], [check_err] and
    [check_crc] leave [register_data] unchanged and read it at indices 0..7
    only. *)
Theorem decoders_preserve_frame (abi : char_abi) {bus} (w : world bus) :
  frame_preserved_within 8 w (snd (calc_hum abi w)) /\
  frame_preserved_within 8 w (snd (calc_temp abi w)) /\
  frame_preserved_within 8 w (snd (calc_discomfort abi w)) /\
  frame_preserved_within 8 w (snd (check_err abi w)) /\
  frame_preserved_within 8 w (snd (check_crc abi w)).
Proof.
  rewrite calc_hum_run, calc_temp_run, calc_discomfort_run, check_err_run,
    check_crc_run.
  cbv zeta. cbn [snd].
  split; [|split; [|split; [|split]]].
  1-3: apply touch_preserves; repeat constructor.
  - destruct (_ <=? _); cbn [snd];
      [apply emit_touch_preserves | apply touch_preserves]; repeat constructor.
  - destruct (_ =? _); cbn [snd];
      [apply touch_preserves | apply emit_touch_preserves]; repeat constructor.
Qed.

(** * One session *)

Section Session.
Context {bus slave : Type} {ctl : I2CCtl bus slave}.
Variable abi : char_abi.
Implicit Type w : world bus.

(* Name the answers of the transport in [transport_run], keeping the equations. *)
Ltac name_calls :=
  repeat match goal with
  | |- context [gen_i2c_slave ?a ?b ?c ?d ?e ?x] =>
      destruct (gen_i2c_slave a b c d e x) as [? ?] eqn:?
  | |- context [init_i2c_slave ?s ?x] => destruct (init_i2c_slave s x) as [? ?] eqn:?
  | |- context [write_i2c_slave ?s ?d ?x] =>
      destruct (write_i2c_slave s d x) as [? ?] eqn:?
  | |- context [read_i2c_slave ?s ?n ?x] =>
      destruct (read_i2c_slave s n x) as [[? ?] ?] eqn:?
  | |- context [term_i2c_slave ?s ?x] => destruct (term_i2c_slave s x) as [? ?] eqn:?
  | |- context [destroy_i2c_slave ?s ?x] =>
      destruct (destroy_i2c_slave s x) as [? ?] eqn:?
  end.

(* One step of [measure]: a call answered as named, or a test of a status. *)
Ltac run_step :=
  match goal with
  | H : ?op = (_, _) |- context [?op] => rewrite H
  | |- context [?r =? -1] => is_var r; destruct (r =? -1) eqn:?
  | |- context [-1 =? -1] => change (-1 =? -1) with true
  | |- context [0 =? -1] => change (0 =? -1) with false
  end; cbn [fst snd register_data touched i2c out negb andb forallb] in *.

Ltac run_session :=
  unfold received, transport_run; name_calls;
  unfold measure, wakeup_am2321, write_mode_am2321,
    steps_ok, bind, call, call_read, usleep, printk, log, ret;
  cbn [fst snd register_data touched i2c out negb andb forallb];
  repeat run_step.

(** A session without transport failure ends in the two validations, made
    on the received frame in this order. *)
Lemma measure_validates w :
  steps_ok (fst (fst (transport_run (i2c w)))) = true ->
  measure abi w =
  (let (r, w1) := check_err abi (received w) in
   if r =? -1 then (-1, w1) else
   let (r', w2) := check_crc abi w1 in
   if r' =? -1 then (-1, w2) else (0, w2)).
Proof.
  run_session; intros Hok; try congruence.
  rewrite <- !app_assoc. cbn [app]. change (Z.to_nat 8) with 8%nat.
  fold session_events.
  destruct (check_err abi _) as [r w1]. destruct (r =? -1); [reflexivity|].
  destruct (check_crc abi w1) as [r' w2]. destruct (r' =? -1); reflexivity.
Qed.

(** A failed transport step ends the attempt with [-1]. *)
Lemma measure_transport_failure w :
  steps_ok (fst (fst (transport_run (i2c w)))) = false ->
  fst (measure abi w) = -1.
Proof.
  run_session; intros Hok; try congruence; reflexivity.
Qed.

Lemma fst_check_err w :
  fst (check_err abi w) =
  if 0x80 <=? char_val abi (nth 2 (register_data w) x00) then -1 else 0.
Proof. rewrite check_err_run. cbv zeta. destruct (_ <=? _); reflexivity. Qed.

Lemma fst_check_crc w :
  fst (check_crc abi w) =
  if rcv_crcsum_of abi (register_data w) =? clc_crcsum_of abi (register_data w)
  then 0 else -1.
Proof. rewrite check_crc_run. cbv zeta. destruct (_ =? _); reflexivity. Qed.

Lemma register_data_check_err w :
  register_data (snd (check_err abi w)) = register_data w.
Proof. rewrite check_err_run. cbv zeta. destruct (_ <=? _); reflexivity. Qed.

Lemma check_crc_after_check_err w :
  fst (check_crc abi (snd (check_err abi w))) = fst (check_crc abi w).
Proof. rewrite !fst_check_crc, register_data_check_err. reflexivity. Qed.

Lemma measure_result w : fst (measure abi w) = 0 \/ fst (measure abi w) = -1.
Proof.
  destruct (steps_ok (fst (fst (transport_run (i2c w))))) eqn:Hok.
  - rewrite (measure_validates w Hok).
    destruct (check_err abi (received w)) as [r w1].
    destruct (r =? -1); [right; reflexivity|].
    destruct (check_crc abi w1) as [r' w2].
    destruct (r' =? -1); [right | left]; reflexivity.
  - right. apply measure_transport_failure, Hok.
Qed.

Lemma no_crc_report_in_status_failure (code : Z) (args : list Z) :
  ~ In (Printk crc_message args) (session_events ++ [Printk err_message [code]]).
Proof.
  cbn [session_events app In]. intros H.
  repeat (destruct H as [H|H]; [discriminate H|]). exact H.
Qed.

(** C7: one session yields a reading (returns 0) exactly when every
    transport step succeeds, [check_err] passes and [check_crc] passes on
    the received frame; [check_err] runs first, and when it fails the
    attempt ends there: only the status failure is reported, whatever the
    checksum, and [check_crc] is never run. *)
Theorem measure_reading_iff w :
  (fst (measure abi w) = 0 <->
   steps_ok (fst (fst (transport_run (i2c w)))) = true /\
   fst (check_err abi (received w)) = 0 /\
   fst (check_crc abi (received w)) = 0) /\
  (fst (measure abi w) <> 0 -> fst (measure abi w) = -1) /\
  (steps_ok (fst (fst (transport_run (i2c w)))) = true ->
   fst (check_err abi (received w)) = -1 ->
   measure abi w =
     (-1, emit [Printk err_message [char_val abi (nth 2 (register_data (received w)) x00)]]
               (touch [2; 2]%nat (received w))) /\
   forall args,
     ~ In (Printk crc_message args)
          (session_events ++
           [Printk err_message [char_val abi (nth 2 (register_data (received w)) x00)]])).
Proof.
  split; [|split].
  - destruct (steps_ok (fst (fst (transport_run (i2c w))))) eqn:Hok.
    + rewrite (measure_validates w Hok).
      rewrite <- (check_crc_after_check_err (received w)).
      pose proof (fst_check_err (received w)) as He.
      destruct (check_err abi (received w)) as [r w1]. cbn [fst snd] in *.
      pose proof (fst_check_crc w1) as Hc.
      destruct (check_crc abi w1) as [r' w2]. cbn [fst] in *.
      subst r r'.
      destruct (128 <=? _);
        destruct (rcv_crcsum_of abi _ =? clc_crcsum_of abi _);
        try change (-1 =? -1) with true; try change (0 =? -1) with false;
        cbn [fst];
        (split; [intros H | intros (H1 & H2 & H3)]); try discriminate; auto.
    + pose proof (measure_transport_failure w Hok) as Hf. rewrite Hf.
      split; [discriminate | intros [H _]; discriminate H].
  - intros Hne. destruct (measure_result w) as [H|H]; [contradiction | exact H].
  - intros Hok Herr. split; [|apply no_crc_report_in_status_failure].
    rewrite (measure_validates w Hok).
    rewrite fst_check_err in Herr. rewrite check_err_run. cbv zeta.
    destruct (_ <=? _); [reflexivity | discriminate Herr].
Qed.
End Session.

Lemma measure_reading_iff_witness :
  steps_ok (fst (fst (transport_run (i2c (boot (mkScript [] [doubly_bad_frame])))))) = true /\
  fst (check_err UnsignedChar (received (boot (mkScript [] [doubly_bad_frame])))) = -1 /\
  fst (check_crc UnsignedChar (received (boot (mkScript [] [doubly_bad_frame])))) = -1 /\
  out (snd (measure UnsignedChar (boot (mkScript [] [doubly_bad_frame])))) =
    session_events ++ [Printk err_message [0x80]].
Proof.
  split; [reflexivity|]. split; [vm_compute; reflexivity|].
  split; [vm_compute; reflexivity|].
  destruct (measure_reading_iff UnsignedChar (boot (mkScript [] [doubly_bad_frame])))
    as (_ & _ & H).
  destruct (H eq_refl eq_refl) as [E _]. rewrite E. reflexivity.
Defined.

(** * Release of the transport *)

(** C6 (violated by the code): a session whose transport was initialised but
    whose wake write, mode write, command write or read then fails returns
    [-1] without calling [term_i2c_slave] or [destroy_i2c_slave]; and when
    [term_i2c_slave] fails, [destroy_i2c_slave] is not called.  Only a
    session whose steps all succeed releases the transport. *)
Theorem measure_leaks_transport_on_failure :
  Forall (fun n =>
            fst (measure UnsignedChar (boot (fails_at n))) = -1 /\
            In I2cInit (out (snd (measure UnsignedChar (boot (fails_at n))))) /\
            count_events is_release (snd (measure UnsignedChar (boot (fails_at n)))) = 0%nat)
         [1; 2; 3; 4]%nat /\
  (fst (measure UnsignedChar (boot (fails_at 5))) = -1 /\
   In I2cTerm (out (snd (measure UnsignedChar (boot (fails_at 5))))) /\
   ~ In I2cDestroy (out (snd (measure UnsignedChar (boot (fails_at 5)))))) /\
  out (snd (measure UnsignedChar (boot (fails_at 1)))) =
    [I2cGen I2C_DEV_1 AM2321_DEV_NAME AM2321_ID 1 3000; I2cInit; I2cWrite [];
     Printk "am2321 : Failed set to write mode for am2321.\n" [];
     Printk "am2321 : Failed wakeup am2321.\n" []] /\
  count_events is_release (snd (measure UnsignedChar (boot (mkScript [] [example_frame]))))
    = 2%nat.
Proof.
  split; [|split; [|split]].
  - repeat (apply Forall_cons;
            [split; [vm_compute; reflexivity|];
             split; [vm_compute; tauto | vm_compute; reflexivity]|]).
    apply Forall_nil.
  - split; [vm_compute; reflexivity|]. split; [vm_compute; tauto|].
    vm_compute. intros H.
    repeat (destruct H as [H|H]; [discriminate H|]). exact H.
  - vm_compute. reflexivity.
  - vm_compute. reflexivity.
Qed.

(** * Retries *)

Section Retry.
Context {bus slave : Type} {ctl : I2CCtl bus slave}.
Variable abi : char_abi.
Implicit Type w : world bus.

Lemma measure_retry_loop_step (fuel : nat) (c : Z) w :
  measure_retry_loop abi (S fuel) c w =
  let (r, w') := measure abi w in
  if r =? -1 then
    if I2C_SLAVE_MAX_RETRY <? c + 1
    then (Some (-1), emit [Printk failed_message []] w')
    else measure_retry_loop abi fuel (c + 1)
           (emit [Printk retry_message [c + 1; I2C_SLAVE_MAX_RETRY]; Usleep 300000] w')
  else (Some 0, w').
Proof.
  cbn [measure_retry_loop]. unfold bind at 1.
  destruct (measure abi w) as [r w']. destruct (r =? -1); [|reflexivity].
  destruct (I2C_SLAVE_MAX_RETRY <? c + 1).
  - reflexivity.
  - unfold bind, printk, usleep, log, emit. cbn [fst snd register_data touched i2c out].
    rewrite <- app_assoc. reflexivity.
Qed.

Lemma measure_retry_loop_spec (fuel : nat) :
  forall (c : Z) w,
    0 <= c <= I2C_SLAVE_MAX_RETRY ->
    I2C_SLAVE_MAX_RETRY + 1 - c <= Z.of_nat fuel ->
    exists (k : nat) (w1 : world bus) (r : Z) (w2 : world bus),
      Z.of_nat k <= I2C_SLAVE_MAX_RETRY - c /\
      retried abi c k w w1 /\
      measure abi w1 = (r, w2) /\
      ((r <> -1 /\ measure_retry_loop abi fuel c w = (Some 0, w2)) \/
       (r = -1 /\ Z.of_nat k = I2C_SLAVE_MAX_RETRY - c /\
        measure_retry_loop abi fuel c w =
          (Some (-1), emit [Printk failed_message []] w2))).
Proof.
  induction fuel as [|fuel IH]; intros c w Hc Hfuel;
    [unfold I2C_SLAVE_MAX_RETRY in *; lia|].
  rewrite measure_retry_loop_step. unfold I2C_SLAVE_MAX_RETRY in *.
  destruct (measure abi w) as [r w'] eqn:Hm.
  destruct (Z.eqb_spec r (-1)) as [->|Hr].
  - destruct (Z.ltb_spec 5 (c + 1)) as [Hlast|Hmore].
    + exists 0%nat, w, (-1), w'. split; [lia|]. split; [constructor|].
      split; [exact Hm|]. right. split; [reflexivity|]. split; [lia|]. reflexivity.
    + destruct (IH (c + 1)
                   (emit [Printk retry_message [c + 1; 5]; Usleep 300000] w'))
        as (k & w1 & r & w2 & Hk & Hretried & Hlast & Hres); [lia | lia |].
      exists (S k), w1, r, w2. split; [lia|].
      split; [econstructor; [exact Hm | exact Hretried]|].
      split; [exact Hlast|].
      destruct Hres as [[Hne E]|[He [Hk' E]]]; [left | right].
      * split; [exact Hne | exact E].
      * split; [exact He|]. split; [lia | exact E].
  - exists 0%nat, w, r, w'. split; [lia|]. split; [constructor|].
    split; [exact Hm|]. left. split; [exact Hr | reflexivity].
Qed.

Lemma measure_retry_attempts (fuel : nat) w :
  (6 <= fuel)%nat ->
  exists (k : nat) (w1 : world bus) (r : Z) (w2 : world bus),
    (k <= 5)%nat /\
    retried abi 0 k w w1 /\
    measure abi w1 = (r, w2) /\
    ((r <> -1 /\ measure_retry abi fuel w = (Some 0, w2)) \/
     (r = -1 /\ k = 5%nat /\
      measure_retry abi fuel w = (Some (-1), emit [Printk failed_message []] w2))).
Proof.
  intros Hfuel.
  destruct (measure_retry_loop_spec fuel 0 w) as (k & w1 & r & w2 & Hk & H1 & H2 & H3);
    unfold I2C_SLAVE_MAX_RETRY in *; try lia.
  exists k, w1, r, w2. split; [lia|]. split; [exact H1|]. split; [exact H2|].
  unfold measure_retry.
  destruct H3 as [H3|(H3 & H4 & H5)]; [left; exact H3 | right].
  split; [exact H3|]. split; [lia | exact H5].
Qed.
End Retry.

(** C5: [measure_retry] makes at most 6 attempts: some [k <= 5] attempts
    fail, each followed by the notice and a sleep of exactly 300000
    microseconds, and one more attempt decides: if it succeeds the function
    returns 0 in the world that attempt left (its frame is the reading); if
    it fails, it was the sixth and the function returns -1.  With a
    transport failing the first 4 attempts the 5th attempt's frame is
    returned; with one that always fails, -1 after exactly 6 attempts. *)
Theorem measure_retry_six_attempts :
  (forall bus slave (ctl : I2CCtl bus slave) (abi : char_abi) (fuel : nat)
          (w : world bus),
      (6 <= fuel)%nat ->
      exists (k : nat) (w1 : world bus) (r : Z) (w2 : world bus),
        (k <= 5)%nat /\
        retried abi 0 k w w1 /\
        measure abi w1 = (r, w2) /\
        ((r <> -1 /\ measure_retry abi fuel w = (Some 0, w2)) \/
         (r = -1 /\ k = 5%nat /\
          measure_retry abi fuel w = (Some (-1), emit [Printk failed_message []] w2)))) /\
  (fst (measure_retry UnsignedChar 6 (boot fifth_succeeds)) = Some 0 /\
   register_data (snd (measure_retry UnsignedChar 6 (boot fifth_succeeds))) = example_frame /\
   count_events is_attempt (snd (measure_retry UnsignedChar 6 (boot fifth_succeeds))) = 5%nat /\
   count_events is_retry_sleep (snd (measure_retry UnsignedChar 6 (boot fifth_succeeds)))
     = 4%nat) /\
  (fst (measure_retry UnsignedChar 6 (boot always_fails)) = Some (-1) /\
   count_events is_attempt (snd (measure_retry UnsignedChar 6 (boot always_fails))) = 6%nat /\
   count_events is_retry_sleep (snd (measure_retry UnsignedChar 6 (boot always_fails)))
     = 5%nat).
Proof.
  split; [|split].
  - intros bus slave ctl abi fuel w Hfuel. apply measure_retry_attempts, Hfuel.
  - repeat split; vm_compute; reflexivity.
  - repeat split; vm_compute; reflexivity.
Qed.

Lemma measure_retry_six_attempts_witness :
  (6 <= 7)%nat /\
  exists (k : nat) (w1 : world script) (r : Z) (w2 : world script),
    (k <= 5)%nat /\
    retried UnsignedChar 0 k (boot fifth_succeeds) w1 /\
    measure UnsignedChar w1 = (r, w2) /\
    ((r <> -1 /\ measure_retry UnsignedChar 7 (boot fifth_succeeds) = (Some 0, w2)) \/
     (r = -1 /\ k = 5%nat /\
      measure_retry UnsignedChar 7 (boot fifth_succeeds) =
        (Some (-1), emit [Printk failed_message []] w2))).
Proof.
  split; [lia|].
  apply (proj1 measure_retry_six_attempts script unit scripted_i2c UnsignedChar 7%nat
               (boot fifth_succeeds)).
  lia.
Defined.

(** * The command line program *)

Section Main.
Context {bus slave : Type} {ctl : I2CCtl bus slave}.
Variable abi : char_abi.
Implicit Type w : world bus.

Lemma print_help_run w : print_help w = (tt, emit help_events w).
Proof.
  unfold print_help, help_events, bind, printf, log, emit.
  cbn [fst snd register_data touched i2c out].
  rewrite <- !app_assoc. reflexivity.
Qed.

Lemma main_help (fuel : nat) (format0 : Z) (opts : list Z) w :
  main abi fuel format0 (opts ++ [opt_h]) w = (Some 1, emit help_events w).
Proof.
  unfold main. rewrite fold_left_app. cbn [fold_left].
  change (opt_h =? opt_h) with true. cbv iota.
  unfold bind. rewrite print_help_run. reflexivity.
Qed.

Lemma main_failure (fuel : nat) (format0 : Z) (opts : list Z) w
      (r1 : Z) (w1 w2 : world bus) :
  fold_left (fun _ arg => arg) opts format0 <> opt_h ->
  measure_retry abi fuel w = (Some r1, w1) ->
  measure_retry abi fuel (emit [Usleep AM2321_WAIT_REFRESH] w1) = (Some (-1), w2) ->
  main abi fuel format0 opts w = (Some 0, emit [Printf failure_line []] w2).
Proof.
  intros Hfmt H1 H2. unfold main.
  destruct (Z.eqb_spec (fold_left (fun _ arg => arg) opts format0) opt_h) as [E|_];
    [contradiction|].
  unfold bind at 1. rewrite H1.
  unfold bind at 1. unfold usleep, log at 1.
  cbn [fst snd register_data touched i2c out].
  unfold bind at 1. unfold emit in H2. rewrite H2.
  change (-1 =? -1) with true. cbv iota.
  unfold bind, printf, log, ret, emit, failure_line. reflexivity.
Qed.
End Main.

(** C9 (as amended): when the measurement that [main] reports on exhausts
    its retries, [main] prints the failure line and returns 0; when -h is
    the last option on the command line, [main] prints the help and returns
    1 without any call to the transport. *)
Theorem main_exit_status :
  (forall bus slave (ctl : I2CCtl bus slave) (abi : char_abi) (fuel : nat)
          (format0 : Z) (opts : list Z) (w : world bus) (r1 : Z) (w1 w2 : world bus),
      fold_left (fun _ arg => arg) opts format0 <> opt_h ->
      measure_retry abi fuel w = (Some r1, w1) ->
      measure_retry abi fuel (emit [Usleep AM2321_WAIT_REFRESH] w1) = (Some (-1), w2) ->
      main abi fuel format0 opts w = (Some 0, emit [Printf failure_line []] w2)) /\
  (forall bus slave (ctl : I2CCtl bus slave) (abi : char_abi) (fuel : nat)
          (format0 : Z) (opts : list Z) (w : world bus),
      main abi fuel format0 (opts ++ [opt_h]) w = (Some 1, emit help_events w) /\
      count_events is_attempt (emit help_events w) = count_events is_attempt w) /\
  (fst (main UnsignedChar 6 0 [opt_c] (boot always_fails)) = Some 0 /\
   last (out (snd (main UnsignedChar 6 0 [opt_c] (boot always_fails)))) (Usleep 0) =
     Printf failure_line [] /\
   count_events is_attempt (snd (main UnsignedChar 6 0 [opt_c] (boot always_fails)))
     = 12%nat).
Proof.
  split; [|split].
  - intros. eapply main_failure; eassumption.
  - intros bus slave ctl abi fuel format0 opts w. split; [apply main_help|].
    unfold count_events, emit. cbn [out]. rewrite filter_app.
    cbn [help_events filter is_attempt]. rewrite app_nil_r. reflexivity.
  - repeat split; vm_compute; reflexivity.
Qed.

Lemma main_exit_status_witness :
  fold_left (fun _ arg => arg) [opt_j; opt_c] 0 <> opt_h /\
  main UnsignedChar 6 0 [opt_j; opt_c] (boot always_fails) =
    (Some 0,
     emit [Printf failure_line []]
          (snd (measure_retry UnsignedChar 6
                  (emit [Usleep AM2321_WAIT_REFRESH]
                        (snd (measure_retry UnsignedChar 6 (boot always_fails))))))).
Proof.
  split; [vm_compute; discriminate|].
  apply (proj1 main_exit_status script unit scripted_i2c UnsignedChar 6%nat 0
               [opt_j; opt_c] (boot always_fails) (-1)
               (snd (measure_retry UnsignedChar 6 (boot always_fails)))).
  - vm_compute; discriminate.
  - vm_compute; reflexivity.
  - vm_compute; reflexivity.
Defined.

(** C9 as stated fails: -h need not cause the help exit.  On the command
    line -h -c the later option replaces it: [main] opens two sessions,
    prints the CSV line and returns 0. *)
Lemma main_help_flag_overridden :
  In opt_h [opt_h; opt_c] /\
  fst (main UnsignedChar 6 0 [opt_h; opt_c]
            (boot (mkScript [] [example_frame; example_frame]))) = Some 0 /\
  count_events is_attempt
    (snd (main UnsignedChar 6 0 [opt_h; opt_c]
               (boot (mkScript [] [example_frame; example_frame])))) = 2%nat /\
  last (out (snd (main UnsignedChar 6 0 [opt_h; opt_c]
                       (boot (mkScript [] [example_frame; example_frame])))))
       (Usleep 0) =
    Printf "%.1f,%.1f,%.1f\n"
           [25.6%float; 52.2%float; spec_decodeDiscomfortIndex 25.6%float 52.2%float] /\
  ~ (forall opts : list Z,
       In opt_h opts ->
       exists r : Z,
         fst (main UnsignedChar 6 0 opts
                   (boot (mkScript [] [example_frame; example_frame]))) = Some r /\
         r <> 0).
Proof.
  split; [left; reflexivity|].
  split; [vm_compute; reflexivity|].
  split; [vm_compute; reflexivity|].
  split; [vm_compute; reflexivity|].
  intros H. destruct (H [opt_h; opt_c] (or_introl eq_refl)) as (r & Hr & Hne).
  vm_compute in Hr. injection Hr as <-. apply Hne. reflexivity.
Qed.

(** * Corruption confined to one byte is always detected *)

Lemma byte_to_Z_inj (b b' : byte) : byte_to_Z b = byte_to_Z b' -> b = b'.
Proof.
  unfold byte_to_Z. intros E. apply N2Z.inj in E.
  pose proof (Byte.of_to_N b) as H. rewrite E, Byte.of_to_N in H. congruence.
Qed.

Lemma lxor_cancel_r (a a' x : Z) : Z.lxor a x = Z.lxor a' x -> a = a'.
Proof.
  intros E. apply (f_equal (fun y => Z.lxor y x)) in E.
  rewrite !Z.lxor_assoc, Z.lxor_nilpotent, !Z.lxor_0_r in E. exact E.
Qed.

Lemma lxor_cancel_l (a x x' : Z) : Z.lxor a x = Z.lxor a x' -> x = x'.
Proof.
  rewrite (Z.lxor_comm a x), (Z.lxor_comm a x'). apply lxor_cancel_r.
Qed.

Lemma land_1_mod_2 (c : Z) : Z.land c 1 = c mod 2.
Proof. change 1 with (Z.ones 1). apply Z.land_ones. lia. Qed.

Lemma crc_shift_cases (c : Z) :
  (c = 2 * Z.shiftr c 1 /\ crc_shift c = Z.shiftr c 1) \/
  (c = 2 * Z.shiftr c 1 + 1 /\ crc_shift c = Z.lxor (Z.shiftr c 1) 0xa001).
Proof.
  unfold crc_shift. rewrite land_1_mod_2.
  rewrite Z.shiftr_div_pow2 by lia. change (2 ^ 1) with 2.
  pose proof (Z.div_mod c 2 ltac:(lia)) as Hdm.
  pose proof (Z.mod_pos_bound c 2 ltac:(lia)) as Hm.
  destruct (Z.eqb_spec (c mod 2) 0) as [E|E]; cbn [negb]; [left | right];
    (split; [lia | reflexivity]).
Qed.

Lemma poly_sets_bit_15 (q : Z) :
  0 <= q < 32768 -> Z.testbit (Z.lxor q 0xa001) 15 = true /\ Z.testbit q 15 = false.
Proof.
  intros Hq.
  assert (Hb : Z.testbit q 15 = false).
  { rewrite <- (Z.mod_small q (2 ^ 15)) by (change (2 ^ 15) with 32768; lia).
    apply Z.mod_pow2_bits_high. lia. }
  rewrite Z.lxor_spec, Hb. split; reflexivity.
Qed.

Lemma crc_shift_inj (a a' : Z) :
  0 <= a < 65536 -> 0 <= a' < 65536 -> crc_shift a = crc_shift a' -> a = a'.
Proof.
  intros Ha Ha' E.
  pose proof (shiftr1_range a Ha) as Hq. pose proof (shiftr1_range a' Ha') as Hq'.
  destruct (crc_shift_cases a) as [[Da Sa]|[Da Sa]];
    destruct (crc_shift_cases a') as [[Da' Sa']|[Da' Sa']];
    rewrite Sa, Sa' in E.
  - lia.
  - exfalso. destruct (poly_sets_bit_15 _ Hq') as [H1 _].
    destruct (poly_sets_bit_15 _ Hq) as [_ H0]. rewrite <- E in H1. congruence.
  - exfalso. destruct (poly_sets_bit_15 _ Hq) as [H1 _].
    destruct (poly_sets_bit_15 _ Hq') as [_ H0]. rewrite E in H1. congruence.
  - apply lxor_cancel_r in E. lia.
Qed.

Lemma iter_crc_shift_inj (n : nat) (a a' : Z) :
  0 <= a < 65536 -> 0 <= a' < 65536 ->
  Nat.iter n crc_shift a = Nat.iter n crc_shift a' -> a = a'.
Proof.
  intros Ha Ha'. induction n as [|n IH]; [trivial|].
  rewrite !Nat.iter_succ. intros E. apply IH.
  apply crc_shift_inj; [apply iter_crc_shift_range .. | exact E]; assumption.
Qed.

Lemma ushort_of_unsigned_char (c : byte) :
  to_ushort (char_val UnsignedChar c) = byte_to_Z c.
Proof.
  pose proof (byte_to_Z_range c). unfold to_ushort, char_val.
  apply Z.mod_small. lia.
Qed.

Lemma xor_byte_range (acc : Z) (c : byte) :
  0 <= acc < 65536 -> 0 <= Z.lxor acc (byte_to_Z c) < 65536.
Proof.
  intros Ha. pose proof (byte_to_Z_range c).
  apply (lxor_below_pow2 16); change (2 ^ 16) with 65536; lia.
Qed.

Lemma crc_byte_inj_acc (acc acc' : Z) (c : byte) :
  0 <= acc < 65536 -> 0 <= acc' < 65536 ->
  crc_byte UnsignedChar acc c = crc_byte UnsignedChar acc' c -> acc = acc'.
Proof.
  intros Ha Ha'. unfold crc_byte. rewrite !for_local_iter, ushort_of_unsigned_char.
  intros E. apply iter_crc_shift_inj in E; [|apply xor_byte_range; assumption ..].
  apply lxor_cancel_r in E. exact E.
Qed.

Lemma crc_byte_inj_byte (acc : Z) (c c' : byte) :
  0 <= acc < 65536 ->
  crc_byte UnsignedChar acc c = crc_byte UnsignedChar acc c' -> c = c'.
Proof.
  intros Ha. unfold crc_byte. rewrite !for_local_iter, !ushort_of_unsigned_char.
  intros E. apply iter_crc_shift_inj in E; [|apply xor_byte_range; assumption ..].
  apply lxor_cancel_l in E. apply byte_to_Z_inj, E.
Qed.

Lemma fold_crc_byte_inj (l : list byte) :
  forall acc acc' : Z,
    0 <= acc < 65536 -> 0 <= acc' < 65536 ->
    fold_left (crc_byte UnsignedChar) l acc = fold_left (crc_byte UnsignedChar) l acc' ->
    acc = acc'.
Proof.
  induction l as [|c l IH]; intros acc acc' Ha Ha' E; [exact E|].
  cbn [fold_left] in E. apply IH in E; [|apply crc_byte_unsigned_range; assumption ..].
  apply crc_byte_inj_acc in E; assumption.
Qed.

Lemma fold_crc_byte_one_byte (pre post : list byte) (b b' : byte) (acc : Z) :
  0 <= acc < 65536 ->
  fold_left (crc_byte UnsignedChar) (pre ++ b :: post) acc =
  fold_left (crc_byte UnsignedChar) (pre ++ b' :: post) acc ->
  b = b'.
Proof.
  intros Ha. rewrite !fold_left_app. cbn [fold_left]. intros E.
  pose proof (fold_crc_byte_range pre acc Ha) as Hp.
  apply fold_crc_byte_inj in E; [|apply crc_byte_unsigned_range; assumption ..].
  apply crc_byte_inj_byte in E; assumption.
Qed.

Lemma frame_split_at (i : nat) (f : list byte) :
  (i < List.length f)%nat -> f = firstn i f ++ nth i f x00 :: skipn (S i) f.
Proof.
  revert f. induction i as [|i IH]; intros [|a f] Hlen; cbn in Hlen; try lia.
  - reflexivity.
  - cbn [firstn nth skipn app]. f_equal. apply IH. lia.
Qed.

Lemma replace_byte_same (i : nat) (f : list byte) :
  (i < List.length f)%nat -> replace_byte i (nth i f x00) f = f.
Proof. intros H. symmetry. apply frame_split_at, H. Qed.

Lemma firstn_6_split (pre post : list byte) (y : byte) :
  (List.length pre < 6)%nat ->
  firstn 6 (pre ++ y :: post) = pre ++ y :: firstn (5 - List.length pre) post.
Proof.
  intros H. rewrite firstn_app, firstn_all2 by lia.
  replace (6 - List.length pre)%nat with (S (5 - List.length pre)) by lia.
  reflexivity.
Qed.

Lemma nth_after_split (pre post : list byte) (y : byte) (j : nat) :
  (List.length pre < j)%nat ->
  nth j (pre ++ y :: post) x00 = nth (j - S (List.length pre)) post x00.
Proof.
  intros H. rewrite app_nth2 by lia.
  replace (j - List.length pre)%nat with (S (j - S (List.length pre))) by lia.
  reflexivity.
Qed.

Lemma clc_crcsum_detects_prefix_byte (pre post : list byte) (b b' : byte) :
  (List.length pre < 6)%nat ->
  (6 <= List.length (pre ++ b :: post))%nat ->
  clc_crcsum_of UnsignedChar (pre ++ b :: post) =
  clc_crcsum_of UnsignedChar (pre ++ b' :: post) ->
  b = b'.
Proof.
  intros Hpre Hlen.
  rewrite !clc_crcsum_of_prefix, !firstn_6_split
    by (rewrite ?length_app in *; cbn [List.length] in *; lia).
  apply fold_crc_byte_one_byte. lia.
Qed.

Lemma clc_crcsum_replace_tail (abi : char_abi) (i : nat) (b : byte) (f : list byte) :
  (6 <= i <= List.length f)%nat ->
  clc_crcsum_of abi (replace_byte i b f) = clc_crcsum_of abi f.
Proof.
  intros Hi.
  assert (Hlen : (6 <= List.length (replace_byte i b f))%nat).
  { unfold replace_byte. rewrite length_app, length_firstn. lia. }
  rewrite !clc_crcsum_of_prefix by lia. f_equal. unfold replace_byte.
  rewrite firstn_app, firstn_firstn, Nat.min_l by lia.
  rewrite length_firstn, Nat.min_l by lia.
  replace (6 - i)%nat with 0%nat by lia. cbn [firstn]. apply app_nil_r.
Qed.

(** X1: [check_crc] detects every corruption confined to a single byte: if an
    8-byte frame passes, the frame with any one byte (register byte or
    checksum byte) replaced by a different value fails. *)
Theorem check_crc_detects_one_byte {bus} (w : world bus) (f : list byte)
        (i : nat) (b : byte) :
  List.length f = 8%nat -> (i < 8)%nat -> b <> nth i f x00 ->
  fst (check_crc UnsignedChar (with_frame f w)) = 0 ->
  fst (check_crc UnsignedChar (with_frame (replace_byte i b f) w)) = -1.
Proof.
  intros Hlen Hi Hb. rewrite !fst_check_crc. cbn [with_frame register_data].
  destruct (Z.eqb_spec (rcv_crcsum_of UnsignedChar f) (clc_crcsum_of UnsignedChar f))
    as [Hok|]; [intros _ | discriminate].
  destruct (Z.eqb_spec (rcv_crcsum_of UnsignedChar (replace_byte i b f))
                       (clc_crcsum_of UnsignedChar (replace_byte i b f)))
    as [Hok'|]; [exfalso | reflexivity].
  apply Hb. clear Hb.
  destruct (Nat.lt_ge_cases i 6) as [Hlow|Hhigh].
  - (* a register byte: the received checksum is the same, the computed one is not *)
    pose proof (frame_split_at i f ltac:(lia)) as Hsplit.
    unfold replace_byte in Hok'.
    set (pre := firstn i f) in *. set (post := skipn (S i) f) in *.
    set (x := nth i f x00) in *.
    assert (Hpre : List.length pre = i) by (unfold pre; rewrite length_firstn; lia).
    assert (Hrcv : rcv_crcsum_of UnsignedChar (pre ++ b :: post) =
                   rcv_crcsum_of UnsignedChar f).
    { rewrite Hsplit. unfold rcv_crcsum_of.
      rewrite !nth_after_split by lia. reflexivity. }
    rewrite Hrcv, Hok, Hsplit in Hok'. symmetry.
    apply (clc_crcsum_detects_prefix_byte pre post); [lia | | exact Hok'].
    rewrite <- Hsplit. lia.
  - (* a checksum byte: the computed checksum is the same, the received one is not *)
    rewrite (clc_crcsum_replace_tail UnsignedChar i b f) in Hok' by lia.
    rewrite <- Hok, !rcv_crcsum_is_spec in Hok'. clear Hok.
    do 8 (destruct f as [|? f]; [discriminate Hlen|]).
    destruct f; [|discriminate Hlen].
    unfold spec_receivedCrc, replace_byte in *.
    assert (Hi' : i = 6%nat \/ i = 7%nat) by lia.
    destruct Hi' as [-> | ->]; cbn [firstn skipn app nth] in *;
      apply byte_to_Z_inj;
      pose proof (byte_to_Z_range b); pose proof (byte_to_Z_range b5);
      pose proof (byte_to_Z_range b6); lia.
Qed.

Lemma check_crc_detects_one_byte_witness :
  List.length example_frame = 8%nat /\ (3 < 8)%nat /\
  x0b <> nth 3 example_frame x00 /\
  fst (check_crc UnsignedChar (with_frame example_frame (boot (mkScript [] [])))) = 0 /\
  fst (check_crc UnsignedChar
         (with_frame (replace_byte 3 x0b example_frame) (boot (mkScript [] [])))) = -1.
Proof.
  split; [reflexivity|]. split; [lia|]. split; [vm_compute; discriminate|].
  split; [vm_compute; reflexivity|].
  apply (check_crc_detects_one_byte (boot (mkScript [] [])) example_frame 3 x0b).
  - reflexivity.
  - lia.
  - vm_compute; discriminate.
  - vm_compute; reflexivity.
Defined.

(** * More on one session *)

Section SessionLog.
Context {bus slave : Type} {ctl : I2CCtl bus slave}.
Variable abi : char_abi.
Implicit Type w : world bus.

(** X2: [wakeup_am2321] makes one zero-length write; if the write returns -1
    it logs the two failure messages and returns -1 without sleeping,
    otherwise it sleeps 800 microseconds and returns 0.  The frame is not
    accessed either way. *)
Theorem wakeup_am2321_run (s : slave) w :
  wakeup_am2321 s w =
  (if fst (write_i2c_slave s [] (i2c w)) =? -1
   then (-1, mkWorld (register_data w) (touched w) (snd (write_i2c_slave s [] (i2c w)))
                     (out w ++ [I2cWrite [];
                                Printk "am2321 : Failed set to write mode for am2321.\n" [];
                                Printk "am2321 : Failed wakeup am2321.\n" []]))
   else (0, mkWorld (register_data w) (touched w) (snd (write_i2c_slave s [] (i2c w)))
                    (out w ++ [I2cWrite []; Usleep 800]))).
Proof.
  unfold wakeup_am2321, write_mode_am2321, bind, call, usleep, printk, log, ret.
  destruct (write_i2c_slave s [] (i2c w)) as [r b].
  cbn [fst snd register_data touched i2c out].
  destruct (r =? -1);
    [change (-1 =? -1) with true | change (0 =? -1) with false];
    cbn [fst snd register_data touched i2c out];
    rewrite <- !app_assoc; reflexivity.
Qed.

(* Name the answers of the transport in [transport_run], keeping the equations. *)
Ltac answers :=
  repeat match goal with
  | |- context [gen_i2c_slave ?a ?b ?c ?d ?e ?x] =>
      destruct (gen_i2c_slave a b c d e x) as [? ?] eqn:?
  | |- context [init_i2c_slave ?s ?x] => destruct (init_i2c_slave s x) as [? ?] eqn:?
  | |- context [write_i2c_slave ?s ?d ?x] =>
      destruct (write_i2c_slave s d x) as [? ?] eqn:?
  | |- context [read_i2c_slave ?s ?n ?x] =>
      destruct (read_i2c_slave s n x) as [[? ?] ?] eqn:?
  | |- context [term_i2c_slave ?s ?x] => destruct (term_i2c_slave s x) as [? ?] eqn:?
  | |- context [destroy_i2c_slave ?s ?x] =>
      destruct (destroy_i2c_slave s x) as [? ?] eqn:?
  end.

Ltac advance :=
  match goal with
  | H : ?op = (_, _) |- context [?op] => rewrite H
  | |- context [?r =? -1] => is_var r; destruct (r =? -1) eqn:?
  | |- context [-1 =? -1] => change (-1 =? -1) with true
  | |- context [0 =? -1] => change (0 =? -1) with false
  end; cbn [fst snd register_data touched i2c out negb andb forallb firstn] in *.

(* Every path of [measure] up to the validation, one goal per path. *)
Ltac paths :=
  unfold received, transport_run; answers;
  unfold measure, wakeup_am2321, write_mode_am2321,
    steps_ok, bind, call, call_read, usleep, printk, log, ret;
  cbn [fst snd register_data touched i2c out negb andb forallb firstn];
  repeat advance;
  change (Z.to_nat 8) with 8%nat in *.

Lemma validation_run w :
  (let (r, w1) := check_err abi w in
   if r =? -1 then (-1, w1) else
   let (r', w2) := check_crc abi w1 in
   if r' =? -1 then (-1, w2) else (0, w2)) =
  (if (0x80 <=? char_val abi (nth 2 (register_data w) x00))
      || negb (rcv_crcsum_of abi (register_data w) =? clc_crcsum_of abi (register_data w))
   then -1 else 0,
   mkWorld (register_data w)
           (touched w ++
            (if 0x80 <=? char_val abi (nth 2 (register_data w) x00)
             then [2; 2]%nat else [2; 7; 6; 0; 1; 2; 3; 4; 5]%nat))
           (i2c w)
           (out w ++ validation_report abi (register_data w))).
Proof.
  rewrite check_err_run. cbv zeta. unfold validation_report.
  destruct (128 <=? char_val abi (nth 2 (register_data w) x00)).
  - change (-1 =? -1) with true. reflexivity.
  - change (0 =? -1) with false. cbv iota. rewrite check_crc_run. cbv zeta.
    cbn [touch register_data touched i2c out orb].
    destruct (rcv_crcsum_of abi (register_data w) =? clc_crcsum_of abi (register_data w)).
    + change (0 =? -1) with false. cbn [negb]. unfold touch.
      cbn [register_data touched i2c out]. rewrite <- app_assoc, app_nil_r. reflexivity.
    + change (-1 =? -1) with true. cbn [negb]. unfold emit, touch.
      cbn [register_data touched i2c out]. rewrite <- app_assoc. reflexivity.
Qed.

Lemma measure_success_log w :
  steps_ok (fst (fst (transport_run (i2c w)))) = true ->
  register_data (snd (measure abi w)) =
    store_front 8 (snd (fst (transport_run (i2c w)))) (register_data w) /\
  i2c (snd (measure abi w)) = snd (transport_run (i2c w)) /\
  out (snd (measure abi w)) =
    out w ++ session_events ++
    validation_report abi (store_front 8 (snd (fst (transport_run (i2c w)))) (register_data w)).
Proof.
  intros Hok. rewrite (measure_validates abi w Hok), validation_run.
  unfold received. destruct (transport_run (i2c w)) as [[rs data] b].
  cbn [fst snd register_data touched i2c out].
  rewrite <- app_assoc. repeat split.
Qed.

(** X3: in a session without transport failure, [measure] makes exactly the
    calls of the protocol in order (gen, init, wake write, 800 us, mode
    write, 1500 us, command 03 00 04, 30 us, read of 8 bytes, term, destroy),
    stores the bytes read, and then prints at most one validation message. *)
Theorem measure_protocol w :
  steps_ok (fst (fst (transport_run (i2c w)))) = true ->
  register_data (snd (measure abi w)) =
    store_front 8 (snd (fst (transport_run (i2c w)))) (register_data w) /\
  i2c (snd (measure abi w)) = snd (transport_run (i2c w)) /\
  out (snd (measure abi w)) =
    out w ++ session_events ++
    validation_report abi (store_front 8 (snd (fst (transport_run (i2c w)))) (register_data w)).
Proof.
  intros Hok. rewrite (measure_validates abi w Hok), validation_run.
  unfold received. destruct (transport_run (i2c w)) as [[rs data] b].
  cbn [fst snd register_data touched i2c out].
  rewrite <- app_assoc. repeat split.
Qed.

Lemma steps_ok_firstn (k : nat) (rs : list Z) :
  steps_ok rs = true -> steps_ok (firstn k rs) = true.
Proof.
  unfold steps_ok. revert k. induction rs as [|r rs IH]; intros [|k] H; try reflexivity.
  cbn [firstn forallb] in *. apply andb_true_iff in H. destruct H as [H1 H2].
  rewrite H1, (IH k H2). reflexivity.
Qed.

Ltac settle_in :=
  repeat split;
  let H := fresh "H" in
  intro H; try reflexivity; try discriminate H;
  try (cbn [In]; tauto);
  try (cbn [In] in H; repeat (destruct H as [H|H]; try discriminate H); contradiction).

(** X4: whatever the transport answers, [measure] reads the sensor exactly
    when init and the three writes succeeded, calls [term_i2c_slave] exactly
    when the read succeeded too, and calls [destroy_i2c_slave] exactly when
    [term_i2c_slave] succeeded as well. *)
Theorem measure_release_iff w :
  exists es : list event,
    out (snd (measure abi w)) = out w ++ es /\
    (In (I2cRead 8) es <-> steps_ok (firstn 4 (fst (fst (transport_run (i2c w))))) = true) /\
    (In I2cTerm es <-> steps_ok (firstn 5 (fst (fst (transport_run (i2c w))))) = true) /\
    (In I2cDestroy es <-> steps_ok (firstn 6 (fst (fst (transport_run (i2c w))))) = true).
Proof.
  destruct (steps_ok (fst (fst (transport_run (i2c w))))) eqn:Hok.
  - destruct (measure_success_log w Hok) as (_ & _ & Hout).
    eexists. split; [exact Hout|].
    repeat split; intros _;
      try (apply steps_ok_firstn, Hok);
      apply in_or_app; left; cbn [session_events In]; tauto.
  - revert Hok. paths; intros Hok; try congruence;
      (eexists; split; [rewrite <- !app_assoc; cbn [app]; reflexivity|]);
      settle_in.
Qed.

(** X5: [measure] overwrites the frame buffer exactly when it reaches the
    read (init and the three writes succeeded), also when the read itself,
    the release or the validation then fails; and it does not read the
    buffer at all in a session with a transport failure. *)
Theorem measure_buffer w :
  register_data (snd (measure abi w)) =
    (if steps_ok (firstn 4 (fst (fst (transport_run (i2c w)))))
     then store_front 8 (snd (fst (transport_run (i2c w)))) (register_data w)
     else register_data w) /\
  (steps_ok (fst (fst (transport_run (i2c w)))) = false ->
   touched (snd (measure abi w)) = touched w).
Proof.
  destruct (steps_ok (fst (fst (transport_run (i2c w))))) eqn:Hok.
  - destruct (measure_success_log w Hok) as (Hreg & _ & _).
    rewrite (steps_ok_firstn 4 _ Hok). split; [exact Hreg | discriminate].
  - revert Hok. paths; intros Hok; try congruence; split; reflexivity.
Qed.
Lemma count_events_app (p : event -> bool) w (es : list event) (w' : world bus) :
  out w' = out w ++ es ->
  count_events p w' = (count_events p w + List.length (filter p es))%nat.
Proof.
  intros H. unfold count_events. rewrite H, filter_app, length_app. reflexivity.
Qed.

Lemma count_events_emit (p : event -> bool) (es : list event) w :
  count_events p (emit es w) = (count_events p w + List.length (filter p es))%nat.
Proof. apply count_events_app. reflexivity. Qed.

Lemma count_events_touch (p : event -> bool) (idx : list nat) w :
  count_events p (touch idx w) = count_events p w.
Proof. reflexivity. Qed.

Lemma validation_report_quiet (frame : list byte) :
  filter is_attempt (validation_report abi frame) = [] /\
  filter is_retry_sleep (validation_report abi frame) = [].
Proof.
  unfold validation_report.
  destruct (_ <=? _); [split; reflexivity|]. destruct (_ =? _); split; reflexivity.
Qed.

(** Every call of [measure] opens exactly one session and never sleeps the
    retry interval. *)
Lemma measure_counts w :
  count_events is_attempt (snd (measure abi w)) = S (count_events is_attempt w) /\
  count_events is_retry_sleep (snd (measure abi w)) = count_events is_retry_sleep w.
Proof.
  destruct (steps_ok (fst (fst (transport_run (i2c w))))) eqn:Hok.
  - destruct (measure_success_log w Hok) as (_ & _ & Hout).
    rewrite !(count_events_app _ w _ _ Hout), !filter_app, !length_app.
    destruct (validation_report_quiet
                (store_front 8 (snd (fst (transport_run (i2c w)))) (register_data w)))
      as [-> ->].
    split; simpl; lia.
  - revert Hok. paths; intros Hok; try congruence;
      unfold count_events; cbn [out]; rewrite !filter_app, !length_app;
      split; simpl; lia.
Qed.
Lemma validation_report_no_refresh (frame : list byte) :
  filter is_refresh_sleep (validation_report abi frame) = [].
Proof.
  unfold validation_report.
  destruct (_ <=? _); [reflexivity|]. destruct (_ =? _); reflexivity.
Qed.

(** [measure] never sleeps the refresh interval. *)
Lemma measure_quiet w :
  count_events is_refresh_sleep (snd (measure abi w)) = count_events is_refresh_sleep w.
Proof.
  destruct (steps_ok (fst (fst (transport_run (i2c w))))) eqn:Hok.
  - destruct (measure_success_log w Hok) as (_ & _ & Hout).
    rewrite (count_events_app _ w _ _ Hout), !filter_app, !length_app.
    rewrite validation_report_no_refresh. simpl. lia.
  - revert Hok. paths; intros Hok; try congruence;
      unfold count_events; cbn [out]; rewrite !filter_app, !length_app;
      simpl; lia.
Qed.
End SessionLog.

Lemma measure_protocol_witness :
  steps_ok (fst (fst (transport_run (i2c (boot (mkScript [] [doubly_bad_frame])))))) = true /\
  out (snd (measure UnsignedChar (boot (mkScript [] [doubly_bad_frame])))) =
    session_events ++ [Printk err_message [0x80]].
Proof.
  split; [reflexivity|].
  assert (Hok : steps_ok (fst (fst (transport_run
                  (i2c (boot (mkScript [] [doubly_bad_frame])))))) = true)
    by reflexivity.
  destruct (measure_protocol UnsignedChar (boot (mkScript [] [doubly_bad_frame])) Hok)
    as (_ & _ & H).
  rewrite H. reflexivity.
Defined.

Lemma measure_buffer_witness :
  steps_ok (fst (fst (transport_run (i2c (boot (fails_at 4)))))) = false /\
  register_data (snd (measure UnsignedChar (boot (fails_at 4)))) = example_frame /\
  touched (snd (measure UnsignedChar (boot (fails_at 4)))) = [].
Proof.
  split; [reflexivity|].
  destruct (measure_buffer UnsignedChar (boot (fails_at 4))) as [Hreg Htouched].
  split; [rewrite Hreg; reflexivity | apply Htouched; reflexivity].
Defined.

(** * What a successful retry loop leaves behind *)

Section RetryResult.
Context {bus slave : Type} {ctl : I2CCtl bus slave}.
Variable abi : char_abi.
Implicit Type w : world bus.

Lemma measure_success_validated w w' :
  measure abi w = (0, w') ->
  fst (check_err abi w') = 0 /\ fst (check_crc abi w') = 0.
Proof.
  intros Hm.
  destruct (steps_ok (fst (fst (transport_run (i2c w))))) eqn:Hok.
  - rewrite (measure_validates abi w Hok), validation_run in Hm.
    rewrite fst_check_err, fst_check_crc.
    injection Hm as Hr Hw. subst w'. cbn [register_data].
    destruct (128 <=? _); [discriminate Hr|].
    destruct (rcv_crcsum_of abi _ =? clc_crcsum_of abi _); [|discriminate Hr].
    split; reflexivity.
  - pose proof (measure_transport_failure abi w Hok) as Hf.
    rewrite Hm in Hf. discriminate Hf.
Qed.

Lemma measure_retry_loop_validated (fuel : nat) :
  forall (c : Z) w w',
    measure_retry_loop abi fuel c w = (Some 0, w') ->
    fst (check_err abi w') = 0 /\ fst (check_crc abi w') = 0.
Proof.
  induction fuel as [|fuel IH]; intros c w w' H; [discriminate H|].
  rewrite measure_retry_loop_step in H.
  pose proof (measure_result abi w) as Hres.
  destruct (measure abi w) as [r w1] eqn:Hm. cbn [fst] in Hres.
  destruct Hres as [-> | ->].
  - change (0 =? -1) with false in H. injection H as <-.
    apply (measure_success_validated w w1 Hm).
  - change (-1 =? -1) with true in H.
    destruct (I2C_SLAVE_MAX_RETRY <? c + 1); [discriminate H|].
    apply (IH _ _ _ H).
Qed.

(** X6: when [measure_retry] returns 0, the frame it leaves in the buffer
    passes both [check_err] and [check_crc]: a reading is never reported from
    an unvalidated frame. *)
Theorem measure_retry_validated (fuel : nat) w w' :
  measure_retry abi fuel w = (Some 0, w') ->
  fst (check_err abi w') = 0 /\ fst (check_crc abi w') = 0.
Proof. apply measure_retry_loop_validated. Qed.

Lemma measure_retry_total (fuel : nat) w :
  (6 <= fuel)%nat ->
  exists (r : Z) (w' : world bus),
    measure_retry abi fuel w = (Some r, w') /\ (r = 0 \/ r = -1).
Proof.
  intros Hfuel.
  destruct (measure_retry_attempts abi fuel w Hfuel)
    as (k & w1 & r & w2 & _ & _ & _ & [[_ E]|(_ & _ & E)]); rewrite E; eauto.
Qed.

(** X7: [main] never reports a failure through its exit status: unless the
    selected option is -h, it returns 0, whatever the transport does. *)
Theorem main_returns_zero (fuel : nat) (format0 : Z) (opts : list Z) w :
  (6 <= fuel)%nat ->
  fold_left (fun _ arg => arg) opts format0 <> opt_h ->
  fst (main abi fuel format0 opts w) = Some 0.
Proof.
  intros Hfuel Hfmt. unfold main.
  destruct (Z.eqb_spec (fold_left (fun _ arg => arg) opts format0) opt_h) as [E|_];
    [contradiction|].
  unfold bind at 1.
  destruct (measure_retry_total fuel w Hfuel) as (r1 & w1 & E1 & _). rewrite E1.
  unfold bind at 1. unfold usleep, log at 1.
  cbn [fst snd register_data touched i2c out].
  unfold bind at 1.
  destruct (measure_retry_total fuel
              (mkWorld (register_data w1) (touched w1) (i2c w1)
                       (out w1 ++ [Usleep AM2321_WAIT_REFRESH])) Hfuel)
    as (r2 & w2 & E2 & Hr2).
  rewrite E2. destruct Hr2 as [-> | ->].
  - change (0 =? -1) with false. cbv iota.
    unfold bind. rewrite calc_temp_run.
    rewrite calc_hum_run. rewrite calc_discomfort_run.
    destruct (_ =? opt_c); [reflexivity|]. destruct (_ =? opt_j); reflexivity.
  - reflexivity.
Qed.

Lemma main_success_run (fuel : nat) (format0 : Z) (opts : list Z) w
        (r1 : Z) (w1 w2 : world bus) :
  fold_left (fun _ arg => arg) opts format0 <> opt_h ->
  measure_retry abi fuel w = (Some r1, w1) ->
  measure_retry abi fuel (emit [Usleep AM2321_WAIT_REFRESH] w1) = (Some 0, w2) ->
  main abi fuel format0 opts w =
  (Some 0,
   emit [Printf (output_format (fold_left (fun _ arg => arg) opts format0))
                [calc_data abi (nth 4 (register_data w2) x00) (nth 5 (register_data w2) x00);
                 calc_data abi (nth 2 (register_data w2) x00) (nth 3 (register_data w2) x00);
                 spec_decodeDiscomfortIndex
                   (calc_data abi (nth 4 (register_data w2) x00)
                                  (nth 5 (register_data w2) x00))
                   (calc_data abi (nth 2 (register_data w2) x00)
                                  (nth 3 (register_data w2) x00))]]
        (touch [4; 5; 2; 3; 2; 3; 4; 5]%nat w2)).
Proof.
  intros Hfmt H1 H2. unfold main, output_format.
  destruct (Z.eqb_spec (fold_left (fun _ arg => arg) opts format0) opt_h) as [E|_];
    [contradiction|].
  unfold bind at 1. rewrite H1.
  unfold bind at 1. unfold usleep, log at 1.
  cbn [fst snd register_data touched i2c out].
  unfold bind at 1. unfold emit in H2. rewrite H2.
  change (0 =? -1) with false. cbv iota.
  unfold bind at 1. rewrite calc_temp_run.
  unfold bind at 1. rewrite calc_hum_run.
  unfold bind at 1. rewrite calc_discomfort_run.
  cbn [touch register_data touched i2c out].
  destruct (_ =? opt_c); [|destruct (_ =? opt_j)];
    unfold bind, printf, log, ret, emit, touch;
    cbn [fst snd register_data touched i2c out];
    rewrite <- !app_assoc; reflexivity.
Qed.

(** X8: after a successful second round, [main] prints one line holding the
    temperature, the humidity and the discomfort index, in this order,
    decoded from the frame the round left; the format is CSV for -c, JSON for
    -j and the human readable one for -r and for any other value. *)
Theorem main_prints_reading (fuel : nat) (format0 : Z) (opts : list Z) w
        (r1 : Z) (w1 w2 : world bus) :
  fold_left (fun _ arg => arg) opts format0 <> opt_h ->
  measure_retry abi fuel w = (Some r1, w1) ->
  measure_retry abi fuel (emit [Usleep AM2321_WAIT_REFRESH] w1) = (Some 0, w2) ->
  main abi fuel format0 opts w =
  (Some 0,
   emit [Printf (output_format (fold_left (fun _ arg => arg) opts format0))
                [calc_data abi (nth 4 (register_data w2) x00) (nth 5 (register_data w2) x00);
                 calc_data abi (nth 2 (register_data w2) x00) (nth 3 (register_data w2) x00);
                 spec_decodeDiscomfortIndex
                   (calc_data abi (nth 4 (register_data w2) x00)
                                  (nth 5 (register_data w2) x00))
                   (calc_data abi (nth 2 (register_data w2) x00)
                                  (nth 3 (register_data w2) x00))]]
        (touch [4; 5; 2; 3; 2; 3; 4; 5]%nat w2)).
Proof.
  intros Hfmt H1 H2. unfold main, output_format.
  destruct (Z.eqb_spec (fold_left (fun _ arg => arg) opts format0) opt_h) as [E|_];
    [contradiction|].
  unfold bind at 1. rewrite H1.
  unfold bind at 1. unfold usleep, log at 1.
  cbn [fst snd register_data touched i2c out].
  unfold bind at 1. unfold emit in H2. rewrite H2.
  change (0 =? -1) with false. cbv iota.
  unfold bind at 1. rewrite calc_temp_run.
  unfold bind at 1. rewrite calc_hum_run.
  unfold bind at 1. rewrite calc_discomfort_run.
  cbn [touch register_data touched i2c out].
  destruct (_ =? opt_c); [|destruct (_ =? opt_j)];
    unfold bind, printf, log, ret, emit, touch;
    cbn [fst snd register_data touched i2c out];
    rewrite <- !app_assoc; reflexivity.
Qed.

(** X9: only the last option on the command line counts: earlier options,
    an earlier -h included, and the initial value of [format] are ignored. *)
Theorem main_last_option (fuel : nat) (format0 format0' : Z) (opts : list Z) (arg : Z) w :
  main abi fuel format0 (opts ++ [arg]) w = main abi fuel format0' [arg] w.
Proof.
  unfold main. rewrite fold_left_app. reflexivity.
Qed.
Lemma retried_counts (c : Z) (k : nat) w w1 :
  retried abi c k w w1 ->
  count_events is_attempt w1 = (count_events is_attempt w + k)%nat /\
  count_events is_retry_sleep w1 = (count_events is_retry_sleep w + k)%nat /\
  count_events is_refresh_sleep w1 = count_events is_refresh_sleep w.
Proof.
  induction 1 as [c w|c k w w1 w2 Hm _ IH].
  - repeat split; lia.
  - destruct IH as (IHa & IHs & IHr).
    destruct (measure_counts abi w) as [Ha Hs].
    pose proof (measure_quiet abi w) as Hr.
    rewrite Hm in Ha, Hs, Hr. cbn [snd] in Ha, Hs, Hr.
    rewrite IHa, IHs, IHr.
    rewrite !count_events_emit. simpl. lia.
Qed.

Lemma measure_retry_counts_aux (fuel : nat) w :
  (6 <= fuel)%nat ->
  exists n : nat,
    (1 <= n <= 6)%nat /\
    count_events is_attempt (snd (measure_retry abi fuel w)) =
      (count_events is_attempt w + n)%nat /\
    (count_events is_retry_sleep (snd (measure_retry abi fuel w)) + 1 =
      count_events is_retry_sleep w + n)%nat /\
    count_events is_refresh_sleep (snd (measure_retry abi fuel w)) =
      count_events is_refresh_sleep w /\
    (fst (measure_retry abi fuel w) = Some (-1) -> n = 6%nat).
Proof.
  intros Hfuel.
  destruct (measure_retry_attempts abi fuel w Hfuel)
    as (k & w1 & r & w2 & Hk & Hretried & Hm & Hres).
  destruct (retried_counts _ _ _ _ Hretried) as (Ra & Rs & Rr).
  destruct (measure_counts abi w1) as [Ha Hs].
  pose proof (measure_quiet abi w1) as Hr.
  rewrite Hm in Ha, Hs, Hr. cbn [snd] in Ha, Hs, Hr.
  destruct Hres as [[Hne E]|(He & Hk5 & E)]; rewrite E; cbn [fst snd].
  - exists (S k). split; [lia|]. split; [lia|]. split; [lia|].
    split; [congruence | discriminate].
  - exists 6%nat.
    rewrite !count_events_emit. simpl.
    split; [lia|]. split; [lia|]. split; [lia|]. split; [lia | reflexivity].
Qed.

(** X10: whatever the transport does, one call of [measure_retry] opens
    between 1 and 6 sessions and sleeps the 300 ms retry interval exactly
    once less than that; it opens all 6 when it returns -1. *)
Theorem measure_retry_counts (fuel : nat) w :
  (6 <= fuel)%nat ->
  exists n : nat,
    (1 <= n <= 6)%nat /\
    count_events is_attempt (snd (measure_retry abi fuel w)) =
      (count_events is_attempt w + n)%nat /\
    (count_events is_retry_sleep (snd (measure_retry abi fuel w)) + 1 =
      count_events is_retry_sleep w + n)%nat /\
    (fst (measure_retry abi fuel w) = Some (-1) -> n = 6%nat).
Proof.
  intros Hfuel.
  destruct (measure_retry_counts_aux fuel w Hfuel) as (n & H1 & H2 & H3 & _ & H5).
  exists n. auto.
Qed.

(** X11: a run of [main] that measures makes two rounds: it opens between 2
    and 12 sessions and waits the 2 s refresh interval exactly once. *)
Theorem main_counts (fuel : nat) (format0 : Z) (opts : list Z) w :
  (6 <= fuel)%nat ->
  fold_left (fun _ arg => arg) opts format0 <> opt_h ->
  exists n : nat,
    (2 <= n <= 12)%nat /\
    count_events is_attempt (snd (main abi fuel format0 opts w)) =
      (count_events is_attempt w + n)%nat /\
    count_events is_refresh_sleep (snd (main abi fuel format0 opts w)) =
      S (count_events is_refresh_sleep w).
Proof.
  intros Hfuel Hfmt.
  destruct (measure_retry_total fuel w Hfuel) as (r1 & w1 & E1 & _).
  destruct (measure_retry_counts_aux fuel w Hfuel) as (n1 & Hn1 & A1 & _ & R1 & _).
  rewrite E1 in A1, R1. cbn [snd] in A1, R1.
  set (w1' := emit [Usleep AM2321_WAIT_REFRESH] w1).
  destruct (measure_retry_total fuel w1' Hfuel) as (r2 & w2 & E2 & Hr2).
  destruct (measure_retry_counts_aux fuel w1' Hfuel) as (n2 & Hn2 & A2 & _ & R2 & _).
  rewrite E2 in A2, R2. cbn [snd] in A2, R2.
  unfold w1' in A2, R2.
  rewrite !count_events_emit in A2, R2. simpl in A2, R2.
  exists (n1 + n2)%nat. split; [lia|].
  destruct Hr2 as [-> | ->].
  - rewrite (main_success_run fuel format0 opts w r1 w1 w2 Hfmt E1 E2). cbn [snd].
    rewrite !count_events_emit, !count_events_touch. simpl. lia.
  - rewrite (main_failure abi fuel format0 opts w r1 w1 w2 Hfmt E1 E2). cbn [snd].
    rewrite !count_events_emit. simpl. lia.
Qed.
End RetryResult.

Lemma measure_retry_validated_witness :
  measure_retry UnsignedChar 6 (boot fifth_succeeds) =
    (Some 0, snd (measure_retry UnsignedChar 6 (boot fifth_succeeds))) /\
  fst (check_err UnsignedChar (snd (measure_retry UnsignedChar 6 (boot fifth_succeeds)))) = 0 /\
  fst (check_crc UnsignedChar (snd (measure_retry UnsignedChar 6 (boot fifth_succeeds)))) = 0.
Proof.
  split; [vm_compute; reflexivity|].
  apply (measure_retry_validated UnsignedChar 6 (boot fifth_succeeds)).
  vm_compute. reflexivity.
Defined.

Lemma main_returns_zero_witness :
  (6 <= 6)%nat /\ fold_left (fun _ arg => arg) [opt_c] 0 <> opt_h /\
  fst (main UnsignedChar 6 0 [opt_c] (boot always_fails)) = Some 0.
Proof.
  split; [lia|]. split; [vm_compute; discriminate|].
  apply (main_returns_zero UnsignedChar 6 0 [opt_c] (boot always_fails));
    [lia | vm_compute; discriminate].
Defined.

Lemma main_prints_reading_witness :
  fold_left (fun _ arg => arg) [opt_j] 0 <> opt_h /\
  out (snd (main UnsignedChar 6 0 [opt_j] (boot fifth_succeeds))) =
    out (snd (measure_retry UnsignedChar 6
                (emit [Usleep AM2321_WAIT_REFRESH]
                      (snd (measure_retry UnsignedChar 6 (boot fifth_succeeds)))))) ++
    [Printf json_format
            [25.6%float; 52.2%float; spec_decodeDiscomfortIndex 25.6%float 52.2%float]].
Proof.
  split; [vm_compute; discriminate|].
  rewrite (main_prints_reading UnsignedChar 6 0 [opt_j] (boot fifth_succeeds) 0
             (snd (measure_retry UnsignedChar 6 (boot fifth_succeeds)))
             (snd (measure_retry UnsignedChar 6
                     (emit [Usleep AM2321_WAIT_REFRESH]
                           (snd (measure_retry UnsignedChar 6 (boot fifth_succeeds)))))));
    [vm_compute; reflexivity | vm_compute; discriminate | vm_compute; reflexivity
     | vm_compute; reflexivity].
Defined.

Lemma measure_retry_counts_witness :
  (6 <= 6)%nat /\
  exists n : nat,
    (1 <= n <= 6)%nat /\
    count_events is_attempt (snd (measure_retry UnsignedChar 6 (boot always_fails))) =
      (count_events is_attempt (boot always_fails) + n)%nat /\
    (count_events is_retry_sleep (snd (measure_retry UnsignedChar 6 (boot always_fails))) + 1 =
      count_events is_retry_sleep (boot always_fails) + n)%nat /\
    (fst (measure_retry UnsignedChar 6 (boot always_fails)) = Some (-1) -> n = 6%nat).
Proof.
  split; [lia|].
  apply (measure_retry_counts UnsignedChar 6 (boot always_fails)). lia.
Defined.

Lemma main_counts_witness :
  (6 <= 6)%nat /\ fold_left (fun _ arg => arg) [opt_r] 0 <> opt_h /\
  exists n : nat,
    (2 <= n <= 12)%nat /\
    count_events is_attempt (snd (main UnsignedChar 6 0 [opt_r] (boot always_fails))) =
      (count_events is_attempt (boot always_fails) + n)%nat /\
    count_events is_refresh_sleep (snd (main UnsignedChar 6 0 [opt_r] (boot always_fails))) =
      S (count_events is_refresh_sleep (boot always_fails)).
Proof.
  split; [lia|]. split; [vm_compute; discriminate|].
  apply (main_counts UnsignedChar 6 0 [opt_r] (boot always_fails));
    [lia | vm_compute; discriminate].
Defined.

(** * The decoded values *)

Lemma all_from_sound (p : Z -> bool) (fuel : nat) :
  forall z, all_from fuel z p = true ->
            forall x, z <= x < z + Z.of_nat fuel -> p x = true.
Proof.
  induction fuel as [|fuel IH]; intros z H x Hx; [lia|].
  cbn [all_from] in H. apply andb_true_iff in H. destruct H as [Hz Hrest].
  destruct (Z.eq_dec x z) as [->|Hne]; [exact Hz|].
  apply (IH (z + 1) Hrest). lia.
Qed.

Lemma every_field_decodes_well (n : Z) : 0 <= n < 65536 -> decodes_well n = true.
Proof.
  intros Hn.
  apply (all_from_sound decodes_well (Z.to_nat 65536) 0); [vm_compute; reflexivity|].
  rewrite Z2Nat.id; lia.
Qed.

Lemma calc_data_unsigned_field_value (high low : byte) :
  calc_data UnsignedChar high low =
  (int_to_double (256 * byte_to_Z high + byte_to_Z low) / 10.0)%float.
Proof.
  unfold calc_data. cbn [char_val].
  rewrite Z.shiftl_mul_pow2 by lia. change (2 ^ 8) with 256.
  rewrite (Z.mul_comm (byte_to_Z high) 256). reflexivity.
Qed.

(** X12: with unsigned [char], [calc_data] never yields a negative value or
    a NaN: every decoded value lies between 0.0 and 6553.5 (a temperature
    field with the sign bit set decodes to a large positive value); and
    different register pairs decode to different values. *)
Theorem calc_data_range_and_injective :
  (forall high low : byte,
      PrimFloat.leb 0 (calc_data UnsignedChar high low) = true /\
      PrimFloat.leb (calc_data UnsignedChar high low) 6553.5 = true) /\
  (forall high low high' low' : byte,
      calc_data UnsignedChar high low = calc_data UnsignedChar high' low' ->
      high = high' /\ low = low').
Proof.
  assert (Hwell : forall high low : byte,
             decodes_well (256 * byte_to_Z high + byte_to_Z low) = true).
  { intros high low. apply every_field_decodes_well.
    pose proof (byte_to_Z_range high). pose proof (byte_to_Z_range low). lia. }
  split.
  - intros high low. specialize (Hwell high low). unfold decodes_well in Hwell.
    cbv zeta in Hwell. rewrite <- calc_data_unsigned_field_value in Hwell.
    apply andb_true_iff in Hwell. destruct Hwell as [Hwell _].
    apply andb_true_iff in Hwell. exact Hwell.
  - intros high low high' low' E.
    pose proof (Hwell high low) as H1. pose proof (Hwell high' low') as H2.
    unfold decodes_well in H1, H2. cbv zeta in H1, H2.
    rewrite <- calc_data_unsigned_field_value in H1, H2.
    apply andb_true_iff in H1, H2. destruct H1 as [_ H1]. destruct H2 as [_ H2].
    apply Z.eqb_eq in H1, H2. rewrite E, H2 in H1.
    pose proof (byte_to_Z_range high). pose proof (byte_to_Z_range low).
    pose proof (byte_to_Z_range high'). pose proof (byte_to_Z_range low').
    split; apply byte_to_Z_inj; lia.
Qed.

Lemma calc_data_range_and_injective_witness :
  calc_data UnsignedChar x01 x00 = calc_data UnsignedChar x01 x00 /\
  x01 = x01 /\ x00 = x00.
Proof.
  split; [reflexivity|].
  apply (proj2 calc_data_range_and_injective x01 x00 x01 x00). reflexivity.
Defined.

(** X13: where plain [char] is signed, the comparison with 0x80 is never
    true: [check_err] returns 0 for every frame and prints nothing. *)
Theorem check_err_signed_char_never_fails {bus} (w : world bus) :
  check_err SignedChar w = (0, touch [2]%nat w).
Proof.
  rewrite check_err_run. cbv zeta. cbn [char_val].
  pose proof (byte_to_Z_range (nth 2 (register_data w) x00)) as Hr.
  destruct (Z.ltb_spec (byte_to_Z (nth 2 (register_data w) x00)) 128) as [Hlt|Hge];
    match goal with
    | |- context [?a <=? ?b] => destruct (Z.leb_spec a b) as [H|H]
    end; try reflexivity; lia.
Qed.

Lemma crc_shift_nonneg (c : Z) : 0 <= c -> 0 <= crc_shift c.
Proof.
  intros H. unfold crc_shift.
  assert (Hs : 0 <= Z.shiftr c 1) by (apply Z.shiftr_nonneg; exact H).
  destruct (negb _); [|exact Hs]. apply Z.lxor_nonneg. lia.
Qed.

Lemma crc_byte_nonneg (abi : char_abi) (acc : Z) (c : byte) :
  0 <= acc -> 0 <= crc_byte abi acc c.
Proof.
  intros H. unfold crc_byte. rewrite for_local_iter.
  apply Nat.iter_invariant; [exact crc_shift_nonneg|].
  apply Z.lxor_nonneg. unfold to_ushort.
  pose proof (Z.mod_pos_bound (char_val abi c) 65536 ltac:(lia)). lia.
Qed.

Lemma clc_crcsum_nonneg (abi : char_abi) (regs : list byte) :
  0 <= clc_crcsum_of abi regs.
Proof.
  unfold clc_crcsum_of.
  assert (H : forall l acc, 0 <= acc ->
            0 <= fold_left (fun acc i => crc_byte abi acc (nth i regs x00)) l acc).
  { induction l as [|i l IH]; intros acc Hacc; [exact Hacc|].
    cbn [fold_left]. apply IH, crc_byte_nonneg, Hacc. }
  apply H. lia.
Qed.

(** X14: where plain [char] is signed, [check_crc] rejects every frame whose
    checksum high byte (byte [7]) is 0x80 or more, correctly sealed or not:
    the received checksum is assembled from sign-extended bytes and is
    negative, the computed one never is. *)
Theorem check_crc_signed_char_rejects {bus} (w : world bus) :
  0x80 <= byte_to_Z (nth 7 (register_data w) x00) ->
  fst (check_crc SignedChar w) = -1.
Proof.
  intros H7. rewrite fst_check_crc.
  pose proof (clc_crcsum_nonneg SignedChar (register_data w)) as Hclc.
  assert (Hrcv : rcv_crcsum_of SignedChar (register_data w) < 0).
  { unfold rcv_crcsum_of, char_val.
    pose proof (byte_to_Z_range (nth 7 (register_data w) x00)).
    pose proof (byte_to_Z_range (nth 6 (register_data w) x00)).
    rewrite Z.shiftl_mul_pow2 by lia. change (2 ^ 8) with 256.
    destruct (Z.ltb_spec (byte_to_Z (nth 7 (register_data w) x00)) 128); [lia|].
    destruct (Z.ltb_spec (byte_to_Z (nth 6 (register_data w) x00)) 128); lia. }
  destruct (Z.eqb_spec (rcv_crcsum_of SignedChar (register_data w))
                       (clc_crcsum_of SignedChar (register_data w))); [lia | reflexivity].
Qed.

Lemma check_crc_signed_char_rejects_witness :
  0x80 <= byte_to_Z (nth 7 (register_data (with_frame example_frame (boot (mkScript [] []))))
                         x00) /\
  fst (check_crc SignedChar (with_frame example_frame (boot (mkScript [] [])))) = -1.
Proof.
  split; [vm_compute; discriminate|].
  apply (check_crc_signed_char_rejects (with_frame example_frame (boot (mkScript [] [])))).
  vm_compute. discriminate.
Defined.
